(** * SplitPy [utils.py]: option handling and waveform acquisition

    A shallow embedding of [splitpy/utils.py]: the three option post-processors
    ([get_options], [get_options_prep_offline], [get_options_OL_proc]), the
    local day-file resolver [parse_localdata_for_comp] and the acquisition
    routine [get_data_NEZ].

    Conventions of the embedding.
    - A [UTCDateTime] is its number of nanoseconds since 1970-01-01T00:00:00Z;
      a sampling interval ([stats.delta]) is a number of nanoseconds.
    - A floating-point sample or header value is [NaN] or a number [Num v];
      only equality tests and [isnan] are applied to them by the code.
    - Python exceptions are the [Exc] results of the type [res]; the calls the
      code makes to the outside (file-name matching, reading a file, merging,
      the data-centre client) are recorded, in order, in a log of [event]s.
    - Functions of the libraries the code calls (fnmatch, obspy, optparse,
      os.path) are fields of the record [Library] or parameters; console
      output is not modelled. *)

From Stdlib Require Import ZArith List String Ascii Bool Lia QArith Qround.
Import ListNotations.
Local Open Scope string_scope.
Local Open Scope list_scope.
Local Open Scope Z_scope.

(** Python's [+] on strings. *)
Infix "+++" := String.append (at level 60, right associativity).

(** ** Python values used by the code *)

(** A Python float as the code observes it. *)
Inductive pyfloat : Type :=
| NaN
| Num (v : Z).

(** [a == b] on floats: a NaN is equal to nothing, itself included. *)
Definition feqb (a b : pyfloat) : bool :=
  match a, b with
  | Num x, Num y => Z.eqb x y
  | _, _ => false
  end.

(** [numpy.isnan]. *)
Definition isnan (a : pyfloat) : bool :=
  match a with
  | NaN => true
  | Num _ => false
  end.

(** Exceptions the modelled code can raise. *)
Inductive exn : Type :=
| IndexError
| KeyError
| TypeError
| ValueError
| UnboundLocalError
| SystemExit (msg : string)
| LibraryError (what : string).

(** Result of a computation that may raise. *)
Inductive res (A : Type) : Type :=
| Ret (a : A)
| Exc (e : exn).
Arguments Ret {A} a.
Arguments Exc {A} e.

(** A local variable of a function body: not yet assigned, or bound. *)
Inductive local (A : Type) : Type :=
| Unbound
| Bound (a : A).
Arguments Unbound {A}.
Arguments Bound {A} a.

(** Calls to the outside world, in the order the code makes them. *)
Inductive event : Type :=
| Search (pat : string)          (* fnmatch.filter(stdata, pat) *)
| Read (file : string)           (* obspy.read(file, format="SAC") *)
| Merge (file1 file2 : string)   (* (st1 + st2).merge() for the two files *)
| Query (loc : string).          (* client.get_waveforms(..., location=loc, ...) *)

(** ** A writer-and-exception monad: log of events and result *)

Definition M (A : Type) : Type := (list event * res A)%type.

Definition ret {A} (a : A) : M A := ([], Ret a).

Definition bind {A B} (m : M A) (f : A -> M B) : M B :=
  match m with
  | (l, Ret a) => let '(l', r) := f a in (l ++ l', r)
  | (l, Exc e) => (l, Exc e)
  end.

Definition tell (e : event) : M unit := ([e], Ret tt).

Definition lift {A} (r : res A) : M A := ([], r).

Definition log_of {A} (m : M A) : list event := fst m.
Definition result_of {A} (m : M A) : res A := snd m.

Declare Scope py_scope.
Delimit Scope py_scope with py.
Notation "x <- c ;; k" := (bind c (fun x => k))
  (at level 61, c at next level, right associativity) : py_scope.
Notation "' pat <- c ;; k" := (bind c (fun x => match x with pat => k end))
  (at level 61, pat pattern, c at next level, right associativity) : py_scope.
Notation "c ;;; k" := (bind c (fun _ => k))
  (at level 61, right associativity) : py_scope.
Local Open Scope py_scope.

(** The same sequencing for code that raises but calls nothing outside. *)
Definition rbind {A B} (r : res A) (f : A -> res B) : res B :=
  match r with
  | Ret a => f a
  | Exc e => Exc e
  end.

(** ** Strings *)

(** [c.upper()] on one ASCII character. *)
Definition upper_ascii (c : ascii) : ascii :=
  let n := nat_of_ascii c in
  if (Nat.leb 97 n && Nat.leb n 122)%bool then ascii_of_nat (n - 32) else c.

(** [s.upper()]. *)
Fixpoint upper (s : string) : string :=
  match s with
  | EmptyString => EmptyString
  | String c s' => String (upper_ascii c) (upper s')
  end.

(** [n] spaces. *)
Fixpoint spaces (n : nat) : string :=
  match n with
  | O => EmptyString
  | S n' => String " " (spaces n')
  end.

(** ['{:ws}'.format(s)]: [s] padded with spaces on the right to width [w],
    never cut. *)
Definition fmt_s (w : nat) (s : string) : string :=
  s +++ spaces (w - String.length s).

(** [s[0:2]]. *)
Definition slice_0_2 (s : string) : string := substring 0 2 s.

(** [s.split(sep)] for a separator of one character. *)
Fixpoint split (sep : ascii) (s : string) : list string :=
  match s with
  | EmptyString => [EmptyString]
  | String c s' =>
      if Ascii.eqb c sep then EmptyString :: split sep s'
      else match split sep s' with
           | h :: t => String c h :: t
           | [] => [String c EmptyString]
           end
  end.

(** The last character of a string, if any. *)
Fixpoint last_char (s : string) : option ascii :=
  match s with
  | EmptyString => None
  | String c EmptyString => Some c
  | String _ s' => last_char s'
  end.

(** Decimal digits of a natural number below ten. *)
Definition digit (n : Z) : ascii := ascii_of_nat (48 + Z.to_nat n).

(** The [w] low decimal digits of [n], zero padded. *)
Fixpoint decimal (w : nat) (n : Z) : string :=
  match w with
  | O => EmptyString
  | S w' => decimal w' (n / 10) +++ String (digit (n mod 10)) EmptyString
  end.

(** ** UTCDateTime *)

Definition UTCDateTime : Type := Z.

Definition ns_per_day : Z := 86400 * 1000000000.

(** Number of the UTC calendar day of a time (days since 1970-01-01). *)
Definition day_number (t : UTCDateTime) : Z := t / ns_per_day.

(** Day number of the civil date [y]-[m]-[d] (proleptic Gregorian). *)
Definition days_from_civil (y m d : Z) : Z :=
  let y' := if m <=? 2 then y - 1 else y in
  let era := y' / 400 in
  let yoe := y' - era * 400 in
  let mp := if 2 <? m then m - 3 else m + 9 in
  let doy := (153 * mp + 2) / 5 + d - 1 in
  let doe := yoe * 365 + yoe / 4 - yoe / 100 + doy in
  era * 146097 + doe - 719468.

(** Calendar year of a day number. *)
Definition year_of_day (n : Z) : Z :=
  let z := n + 719468 in
  let era := z / 146097 in
  let doe := z - era * 146097 in
  let yoe := (doe - doe / 1460 + doe / 36524 - doe / 146096) / 365 in
  let doy := doe - (365 * yoe + yoe / 4 - yoe / 100) in
  let mp := (5 * doy + 2) / 153 in
  let m := if mp <? 10 then mp + 3 else mp - 9 in
  let y := yoe + era * 400 in
  if m <=? 2 then y + 1 else y.

Definition year (t : UTCDateTime) : Z := year_of_day (day_number t).

(** Day of the year, 1 for the first of January. *)
Definition julday (t : UTCDateTime) : Z :=
  day_number t - days_from_civil (year t) 1 1 + 1.

(** [t.strftime("%Y")]: the year in four digits. *)
Definition strftime_Y (t : UTCDateTime) : string := decimal 4 (year t).

(** [t.strftime("%j")]: the day of the year in three digits. *)
Definition strftime_j (t : UTCDateTime) : string := decimal 3 (julday t).

(** Two times fall on the same calendar day. *)
Definition same_calendar_day (a b : UTCDateTime) : bool :=
  day_number a =? day_number b.

(** The time of the civil date [y]-[m]-[d] at [s] seconds after midnight. *)
Definition utc (y m d s : Z) : UTCDateTime :=
  days_from_civil y m d * ns_per_day + s * 1000000000.

(** ** Traces and streams (the part of obspy's data model the code reads) *)

Record Trace : Type := mkTrace {
  tr_station : string;          (* stats.station *)
  tr_channel : string;          (* stats.channel *)
  tr_location : string;         (* stats.location *)
  starttime : UTCDateTime;      (* stats.starttime *)
  delta : Z;                    (* stats.delta *)
  sac_user9 : option pyfloat;   (* stats.sac['user9'], when the key is there *)
  data : list pyfloat           (* the samples *)
}.

(** A [Stream] is the list of its traces; [+] on streams is [++]. *)
Definition Stream : Type := list Trace.

(** [len(x)]. *)
Definition len {A} (l : list A) : Z := Z.of_nat (List.length l).

(** [stats.endtime], which obspy derives from start, interval and length. *)
Definition endtime (tr : Trace) : UTCDateTime :=
  if len (data tr) =? 0 then starttime tr
  else starttime tr + (len (data tr) - 1) * delta tr.

(** [st[0]]. *)
Definition index0 (st : Stream) : res Trace :=
  match st with
  | [] => Exc IndexError
  | tr :: _ => Ret tr
  end.

(** [stats.sac['user9']]. *)
Definition user9 (tr : Trace) : res pyfloat :=
  match sac_user9 tr with
  | Some v => Ret v
  | None => Exc KeyError
  end.

Definition set_data (d : list pyfloat) (tr : Trace) : Trace :=
  mkTrace (tr_station tr) (tr_channel tr) (tr_location tr) (starttime tr)
          (delta tr) (sac_user9 tr) d.

(** [tr.data[tr.data == stnd] = ndval]. *)
Definition replace_nodata (stnd ndval : pyfloat) (tr : Trace) : Trace :=
  set_data (map (fun x => if feqb x stnd then ndval else x) (data tr)) tr.

(** An update in place of the first trace of a stream. *)
Definition update0 (f : Trace -> Trace) (st : Stream) : Stream :=
  match st with
  | [] => []
  | tr :: rest => f tr :: rest
  end.

(** [st.select(component=c)]: the traces whose channel code ends in [c]. *)
Definition has_component (c : string) (tr : Trace) : bool :=
  match last_char (tr_channel tr) with
  | Some x => String.eqb (String (upper_ascii x) EmptyString) (upper c)
  | None => false
  end.

Definition select (c : string) (st : Stream) : Stream :=
  filter (has_component c) st.

(** Truth value of a trace ([not tr] is its negation): it has samples. *)
Definition trace_bool (tr : Trace) : bool := 0 <? len (data tr).

(** Truth value of a stream: it has traces. *)
Definition stream_bool (st : Stream) : bool := 0 <? len st.

(** [True in isnan(tr.data)]. *)
Definition has_nan (tr : Trace) : bool := existsb isnan (data tr).

(** ** The libraries the code calls *)

(** The signal-processing calls of [get_data_NEZ], with their arguments. *)
Inductive dsp_op : Type :=
| Detrend (type : string)
| Lowpass (freq : Q) (corners : Z) (zerophase : bool)
| Resample (sampling_rate : Q)
| Bandpass (freqmin freqmax : Q) (corners : Z) (zerophase : bool).

Record Library : Type := mkLibrary {
  (* fnmatch.filter(names, pat) *)
  fnmatch_filter : list string -> string -> list string;
  (* obspy.read(file, format="SAC") *)
  obspy_read : string -> res Stream;
  (* Stream.merge(), on the traces of the stream *)
  stream_merge : Stream -> res Stream;
  (* Stream.trim(starttime=, endtime=) *)
  stream_trim : UTCDateTime -> UTCDateTime -> Stream -> res Stream;
  (* "{0:s}".format(t) for a UTCDateTime t (raises on Python 3) *)
  format_time_s : UTCDateTime -> res string;
  (* the samples of a trace of the given interval after a processing call,
     or the exception the call raises *)
  signal : dsp_op -> Z -> list pyfloat -> res (list pyfloat)
}.

(** [client.get_waveforms(network=, station=, location=, channel=,
    starttime=, endtime=, attach_response=False)]. *)
Definition Client : Type :=
  string -> string -> string -> string -> UTCDateTime -> UTCDateTime -> res Stream.

(** Station metadata, as the code reads it. *)
Record Station : Type := mkStation {
  network : string;
  station : string;
  channel : string;
  location : list string;
  altnet : list string
}.

(** ** parse_localdata_for_comp *)

(** File-name pattern "Format 1":
    ['*/{0:4s}.{1:3s}.{2:s}.{3:s}.*.{4:2s}{5:1s}.SAC']. *)
Definition format1 (yr jd net stn chan comp : string) : string :=
  "*/" +++ fmt_s 4 yr +++ "." +++ fmt_s 3 jd +++ "." +++ net +++ "." +++ stn
       +++ ".*." +++ fmt_s 2 chan +++ fmt_s 1 comp +++ ".SAC".

(** File-name pattern "Format 2":
    ['*/{0:4s}.{1:3s}.{2:s}.{3:s}.*.*{4:1s}.SAC']. *)
Definition format2 (yr jd net stn comp : string) : string :=
  "*/" +++ fmt_s 4 yr +++ "." +++ fmt_s 3 jd +++ "." +++ net +++ "." +++ stn
       +++ ".*.*" +++ fmt_s 1 comp +++ ".SAC".

(** [list(filter(stdata, pat))]. *)
Definition search (L : Library) (stdata : list string) (pat : string)
  : M (list string) :=
  tell (Search pat) ;;; ret (fnmatch_filter L stdata pat).

(** [lclfiles = []; for anet in altnet: lclfiles.extend(list(filter(stdata, pat)))]
    where the pattern is built in the loop body. *)
Fixpoint search_each (L : Library) (stdata : list string)
         (pat : string -> string) (nets : list string) : M (list string) :=
  match nets with
  | [] => ret []
  | anet :: rest =>
      found <- search L stdata (pat anet) ;;
      more <- search_each L stdata pat rest ;;
      ret (found ++ more)
  end.

(** Lines 456-478: the files of the day [yr].[jd] in the single-day case. *)
Definition lclfiles_single_day (L : Library) (comp : string)
           (stdata : list string) (sta : Station) (yr jd : string)
  : M (list string) :=
  (* Format 1 *)
  lclfiles <- search L stdata
    (format1 yr jd (upper (network sta)) (upper (station sta))
             (slice_0_2 (upper (channel sta))) (upper comp)) ;;
  (* Format 2 *)
  lclfiles <- (if len lclfiles =? 0 then
      search L stdata
        (format2 yr jd (upper (network sta)) (upper (station sta)) (upper comp))
    else ret lclfiles) ;;
  (* Alternate Nets Format 1 *)
  lclfiles <- (if len lclfiles =? 0 then
      search_each L stdata
        (fun anet => format1 yr jd (upper anet) (upper (station sta))
                             (slice_0_2 (upper (channel sta))) (upper comp))
        (altnet sta)
    else ret lclfiles) ;;
  (* Alternate Nets Format 2: the pattern takes sta.network, not anet *)
  lclfiles <- (if len lclfiles =? 0 then
      search_each L stdata
        (fun anet => format2 yr jd (upper (network sta)) (upper (station sta))
                             (upper comp))
        (altnet sta)
    else ret lclfiles) ;;
  ret lclfiles.

(** Lines 526-546 and 548-568: the files of one day in the two-day case. *)
Definition lclfiles_day (L : Library) (comp : string)
           (stdata : list string) (sta : Station) (yr jd : string)
  : M (list string) :=
  (* Format 1 *)
  lclfiles <- search L stdata
    (format1 yr jd (upper (network sta)) (upper (station sta))
             (slice_0_2 (upper (channel sta))) (upper comp)) ;;
  (* Format 2 *)
  lclfiles <- (if len lclfiles =? 0 then
      search L stdata
        (format2 yr jd (upper (network sta)) (upper (station sta)) (upper comp))
    else ret lclfiles) ;;
  (* Alternate Nets Format 1 *)
  lclfiles <- (if len lclfiles =? 0 then
      search_each L stdata
        (fun anet => format1 yr jd (upper anet) (upper (station sta))
                             (slice_0_2 (upper (channel sta))) (upper comp))
        (altnet sta)
    else ret lclfiles) ;;
  (* Alternate Nets Format 2 *)
  lclfiles <- (if len lclfiles =? 0 then
      search_each L stdata
        (fun anet => format2 yr jd (upper anet) (upper (station sta))
                             (upper comp))
        (altnet sta)
    else ret lclfiles) ;;
  ret lclfiles.

(** [read(sacfile, format="SAC")]. *)
Definition read (L : Library) (sacfile : string) : M Stream :=
  tell (Read sacfile) ;;; lift (obspy_read L sacfile).

(** Lines 496-500: the no-data value of the first trace is replaced when the
    header gives one; the flag tells whether it was. *)
Definition convert_nodata (stnd ndval : pyfloat) (st : Stream)
  : Stream * bool :=
  if (negb (feqb stnd (Num 0)) && negb (feqb stnd (Num (-12345))))%bool
  then (update0 (replace_nodata stnd ndval) st, true)
  else (st, false).

(** Lines 503-521 and 608-626: the window test, the trim and the NaN test on
    a one-trace stream; [Some st] is [return False, st]. *)
Definition window_of (L : Library) (st : Stream) (start end_ : UTCDateTime)
  : res (option Stream) :=
  rbind (index0 st) (fun tr =>
  if ((starttime tr <=? start) && (endtime tr >=? end_))%bool then
    rbind (stream_trim L start end_ st) (fun st =>
    rbind (index0 st) (fun tr =>
    if has_nan tr then Ret None else Ret (Some st)))
  else Ret None).

(** Lines 486-521: the loop over the files of the single day. *)
Fixpoint read_single_day (L : Library) (lclfiles : list string)
         (start end_ : UTCDateTime) (ndval : pyfloat)
  : M (bool * option Stream) :=
  match lclfiles with
  | [] => ret (true, None)
  | sacfile :: rest =>
      st <- read L sacfile ;;
      if negb (len st =? 1) then read_single_day L rest start end_ ndval
      else
        tr <- lift (index0 st) ;;
        stnd <- lift (user9 tr) ;;
        let '(st, eddt) := convert_nodata stnd ndval st in
        found <- lift (window_of L st start end_) ;;
        match found with
        | Some st => ret (false, Some st)
        | None => read_single_day L rest start end_ ndval
        end
  end.

(** Line 585: the overlap test of a day-1 trace and a day-2 trace. *)
Definition overlaps (tr1 tr2 : Trace) : bool :=
  endtime tr1 >=? starttime tr2 - delta tr2.

(** Lines 600-626: the body of the [try]. *)
Definition try_merge (L : Library) (st : Stream) (start end_ : UTCDateTime)
  : res (option Stream) :=
  rbind (stream_merge L st) (fun st =>
  if negb (len st =? 1) then Ret None
  else window_of L st start end_).

(** Lines 581-632: the loop over the day-2 files for one day-1 stream, which
    the no-data conversion updates in place. [Some st] is [return False, st]. *)
Fixpoint merge_second_day (L : Library) (sacf1 : string) (st1 : Stream)
         (lclfiles2 : list string) (start end_ : UTCDateTime) (ndval : pyfloat)
  : M (option Stream) :=
  match lclfiles2 with
  | [] => ret None
  | sacf2 :: rest =>
      st2 <- read L sacf2 ;;
      tr1 <- lift (index0 st1) ;;
      tr2 <- lift (index0 st2) ;;
      if overlaps tr1 tr2 then
        st1nd <- lift (user9 tr1) ;;
        st2nd <- lift (user9 tr2) ;;
        let '(st1, eddt1) := convert_nodata st1nd ndval st1 in
        let '(st2, eddt2) := convert_nodata st2nd ndval st2 in
        tell (Merge sacf1 sacf2) ;;;
        match try_merge L (st1 ++ st2) start end_ with
        | Ret (Some st) => ret (Some st)
        | Ret None => merge_second_day L sacf1 st1 rest start end_ ndval
        | Exc _ => merge_second_day L sacf1 st1 rest start end_ ndval
        end
      else
        _ <- lift (format_time_s L (endtime tr1)) ;;
        _ <- lift (format_time_s L (starttime tr2 - delta tr2)) ;;
        merge_second_day L sacf1 st1 rest start end_ ndval
  end.

(** Lines 578-632: the loop over the day-1 files. *)
Fixpoint merge_first_day (L : Library) (lclfiles1 lclfiles2 : list string)
         (start end_ : UTCDateTime) (ndval : pyfloat)
  : M (bool * option Stream) :=
  match lclfiles1 with
  | [] => ret (true, None)
  | sacf1 :: rest =>
      st1 <- read L sacf1 ;;
      found <- merge_second_day L sacf1 st1 lclfiles2 start end_ ndval ;;
      match found with
      | Some st => ret (false, Some st)
      | None => merge_first_day L rest lclfiles2 start end_ ndval
      end
  end.

(** The branch of line 455. *)
Inductive path : Type :=
| SingleDay      (* "Time Window Spans Single Day" *)
| TwoDays.       (* "Time Window spans Multiple days" *)

Definition search_path (start end_ : UTCDateTime) : path :=
  let stjd := strftime_j start in
  let edjd := strftime_j end_ in
  if String.eqb stjd edjd then SingleDay else TwoDays.

Definition parse_localdata_for_comp (L : Library) (comp : string)
           (stdata : list string) (sta : Station) (start end_ : UTCDateTime)
           (ndval : pyfloat) : M (bool * option Stream) :=
  let styr := strftime_Y start in
  let stjd := strftime_j start in
  let edyr := strftime_Y end_ in
  let edjd := strftime_j end_ in
  let erd := true in
  match search_path start end_ with
  | SingleDay =>
      lclfiles <- lclfiles_single_day L comp stdata sta styr stjd ;;
      if len lclfiles =? 0 then ret (erd, None)
      else read_single_day L lclfiles start end_ ndval
  | TwoDays =>
      lclfiles1 <- lclfiles_day L comp stdata sta styr stjd ;;
      lclfiles2 <- lclfiles_day L comp stdata sta edyr edjd ;;
      if ((len lclfiles1 =? 0) && (len lclfiles2 =? 0))%bool then ret (erd, None)
      else if ((0 <? len lclfiles1) && (0 <? len lclfiles2))%bool then
        merge_first_day L lclfiles1 lclfiles2 start end_ ndval
      else ret (erd, None)
  end.

(** ** get_data_NEZ *)

(** The sampling interval, in nanoseconds, of a sampling rate in Hz. *)
Definition period_ns (sampling_rate : Q) : Z :=
  Qfloor (inject_Z 1000000000 / sampling_rate).

(** A processing call on one trace, in place: it raises, or the samples
    change, and a resampling sets the interval; station, channel and start
    time stay. *)
Definition apply_op (L : Library) (op : dsp_op) (tr : Trace) : res Trace :=
  rbind (signal L op (delta tr) (data tr)) (fun d =>
  Ret (mkTrace (tr_station tr) (tr_channel tr) (tr_location tr) (starttime tr)
               (match op with
                | Resample r => period_ns r
                | _ => delta tr
                end)
               (sac_user9 tr) d)).

(** A processing call on a stream: the call on its traces, one after the
    other; the first exception ends it. *)
Fixpoint stream_op (L : Library) (op : dsp_op) (st : Stream) : res Stream :=
  match st with
  | [] => Ret []
  | tr :: rest =>
      rbind (apply_op L op tr) (fun tr' =>
      rbind (stream_op L op rest) (fun rest' => Ret (tr' :: rest')))
  end.

(** [st.detrend(type)], [st.filter('lowpass', ...)], [st.resample(rate)] and
    [st.filter('bandpass', ...)]. *)
Definition detrend (L : Library) (type : string) (st : Stream) : res Stream :=
  stream_op L (Detrend type) st.

Definition filter_lowpass (L : Library) (freq : Q) (corners : Z)
           (zerophase : bool) (st : Stream) : res Stream :=
  stream_op L (Lowpass freq corners zerophase) st.

Definition resample (L : Library) (sampling_rate : Q) (st : Stream)
  : res Stream :=
  stream_op L (Resample sampling_rate) st.

Definition filter_bandpass (L : Library) (freqmin freqmax : Q) (corners : Z)
           (zerophase : bool) (st : Stream) : res Stream :=
  stream_op L (Bandpass freqmin freqmax corners zerophase) st.

(** [a + b] on what [parse_localdata_for_comp] returns as its stream. *)
Definition add_streams (a b : option Stream) : res (option Stream) :=
  match a, b with
  | Some x, Some y => Ret (Some (x ++ y))
  | _, _ => Exc TypeError
  end.

(** What [get_data_NEZ] returns. *)
Definition NEZ : Type :=
  (bool * option Trace * option Trace * option Trace)%type.

Definition error_result : NEZ := (true, None, None, None).

(** Lines 662-675: the local files; the value of [erd] and the variable [st]
    after the block. *)
Definition local_data (L : Library) (sta : Station) (start end_ : UTCDateTime)
           (stdata : list string) (ndval : pyfloat)
  : M (bool * local (option Stream)) :=
  if 0 <? len stdata then
    '(errZ, stZ) <- parse_localdata_for_comp L "Z" stdata sta start end_ ndval ;;
    '(errN, stN) <- parse_localdata_for_comp L "N" stdata sta start end_ ndval ;;
    '(errE, stE) <- parse_localdata_for_comp L "E" stdata sta start end_ ndval ;;
    let erd := (errZ || errN || errE)%bool in
    if negb erd then
      st <- lift (rbind (add_streams stZ stN) (fun zn => add_streams zn stE)) ;;
      ret (erd, Bound st)
    else ret (erd, Unbound)
  else ret (true, Unbound).

(** Lines 681-705: the loop over [sta.location], from the values of [erd]
    and [st] before an iteration to their values after the loop. *)
Fixpoint request_client (client : Client) (sta : Station)
         (start end_ : UTCDateTime) (locs : list string)
         (erd : bool) (st : local (option Stream))
  : M (bool * local (option Stream)) :=
  match locs with
  | [] => ret (erd, st)
  | loc :: rest =>
      let channels := upper (channel sta) +++ "E," +++ upper (channel sta)
                      +++ "N," +++ upper (channel sta) +++ "Z" in
      tell (Query loc) ;;;
      match client (network sta) (station sta) loc channels start end_ with
      | Ret st =>
          if len st =? 3 then ret (false, Bound (Some st))
          else request_client client sta start end_ rest true (Bound None)
      | Exc _ => request_client client sta start end_ rest true (Bound None)
      end
  end.

(** ['E'[0]]. *)
Definition str0 (s : string) : string := substring 0 1 s.

(** Line 713: the condition of the [elif], left to right. *)
Definition component_missing (st : Stream) : res bool :=
  rbind (index0 (select "Z" st)) (fun trZ =>
  if negb (trace_bool trZ) then Ret true
  else if negb (stream_bool (select (str0 "E") st)) then Ret true
  else rbind (index0 (select "N" st)) (fun trN =>
       Ret (negb (trace_bool trN)))).

(** Lines 715-717: the three tests that choose what is printed. *)
Definition report_missing (st : Stream) : res unit :=
  rbind (index0 (select "Z" st)) (fun _ =>
  rbind (index0 (select "E" st)) (fun _ =>
  rbind (index0 (select "N" st)) (fun _ => Ret tt))).

(** Lines 725-728: [ll0 == ll1 and ll0 == ll2]. *)
Definition lengths_equal (st : Stream) : res bool :=
  rbind (index0 (select "Z" st)) (fun tr => let ll0 := len (data tr) in
  rbind (index0 (select "E" st)) (fun tr => let ll1 := len (data tr) in
  rbind (index0 (select "Z" st)) (fun tr => let ll2 := len (data tr) in
  Ret ((ll0 =? ll1) && (ll0 =? ll2))%bool))).

(** Lines 734-739: the processing of the stream; an exception of a call
    leaves the function. *)
Definition process (L : Library) (st : Stream) : res Stream :=
  rbind (detrend L "demean" st) (fun st =>
  rbind (detrend L "linear" st) (fun st =>
  rbind (filter_lowpass L ((1 # 2) * (5 # 1)) 2 true st) (fun st =>
  rbind (resample L (5 # 1) st) (fun st =>
  rbind (filter_bandpass L (1 # 100) (1 # 4) 2 true st) (fun st =>
  Ret st))))).

(** Lines 742-747: the traces of the result. *)
Definition extract (st : Stream) : res NEZ :=
  rbind (index0 (select "E" st)) (fun trE =>
  rbind (index0 (select "N" st)) (fun trN =>
  rbind (index0 (select "Z" st)) (fun trZ =>
  Ret (false, Some trN, Some trE, Some trZ)))).

(** Lines 708-747: from the variable [st] to the result. *)
Definition check_and_process (L : Library) (st : local (option Stream))
  : res NEZ :=
  match st with
  | Unbound => Exc UnboundLocalError
  | Bound None => Ret error_result
  | Bound (Some st) =>
      rbind (component_missing st) (fun missing =>
      if missing then rbind (report_missing st) (fun _ => Ret error_result)
      else
        rbind (lengths_equal st) (fun equal =>
        if negb equal then Ret error_result
        else rbind (process L st) extract))
  end.

(** Lines 659-705: the stream from the local files, else from the client;
    the values of [erd] and [st] at line 708. *)
Definition acquire (L : Library) (client : Client) (sta : Station)
           (start end_ : UTCDateTime) (stdata : list string) (ndval : pyfloat)
  : M (bool * local (option Stream)) :=
  '(erd, st) <- local_data L sta start end_ stdata ndval ;;
  if erd then request_client client sta start end_ (location sta) false st
  else ret (erd, st).

Definition get_data_NEZ (L : Library) (client : Client) (sta : Station)
           (start end_ : UTCDateTime) (stdata : list string) (ndval : pyfloat)
  : M NEZ :=
  '(erd, st) <- acquire L client sta start end_ stdata ndval ;;
  lift (check_and_process L st).

(** ** The option post-processors

    [parser.parse_args()] is optparse's; the functions start from the values
    it returns ([opts]) and the positional arguments ([args]).  [Other] is the
    type of the options a function leaves as they were parsed. *)

(** [parser.error(msg)]: prints the usage and the message, and exits. *)
Definition parser_error {A} (msg : string) : res A := Exc (SystemExit msg).

(** [opts.stkeys] is a string, or the list the string was split into. *)
Inductive station_keys : Type :=
| KeyString (s : string)
| KeyList (l : list string).

(** [len(s)] on a string. *)
Definition slen (s : string) : Z := Z.of_nat (String.length s).

(** "Check inputs": one positional argument, which names an existing file. *)
Definition check_inputs (exist : string -> bool) (args : list string)
           (need missing_prefix : string) : res string :=
  match args with
  | [indb] =>
      if negb (exist indb)
      then parser_error (missing_prefix +++ indb +++ " does not exist")
      else Ret indb
  | _ => parser_error need
  end.

(** "create station key list". *)
Definition create_station_keys (stkeys : string) : station_keys :=
  if 0 <? slen stkeys then KeyList (split "," stkeys) else KeyString stkeys.

(** "construct start time" and "construct end time"; [which] is "start" or
    "end" and [to_time] is [UTCDateTime(s)], [None] when it raises. *)
Definition construct_time (to_time : string -> option UTCDateTime)
           (which s : string) : res (option UTCDateTime) :=
  if 0 <? slen s then
    match to_time s with
    | Some t => Ret (Some t)
    | None => parser_error
                ("Cannot construct UTCDateTime from " +++ which +++ " time: " +++ s)
    end
  else Ret None.

(** "Parse User Authentification". *)
Definition parse_user_auth (UserAuth : string) : res (list string) :=
  if negb (slen UserAuth =? 0) then
    let tt := split ":" UserAuth in
    if negb (len tt =? 2)
    then parser_error
      "Error: Incorrect Username and Password Strings for User Authentification"
    else Ret tt
  else Ret [].

(** "Parse Local Data directories". *)
Definition parse_local_data (localdata : option string) : list string :=
  match localdata with
  | Some s => split "," s
  | None => []
  end.

(** "Check NoData Value". *)
Definition nodata_value (ndval : bool) : pyfloat :=
  if ndval then Num 0 else NaN.

Module OTF.
(** The options of [get_options] as parsed. *)
Record Values (Other : Type) : Type := mkValues {
  stkeys : string;
  ovr : bool;
  skip : bool;
  UserAuth : string;
  localdata : option string;
  ndval : bool;
  startT : string;
  endT : string;
  other : Other
}.
(** The options [get_options] returns. *)
Record Options (Other : Type) : Type := mkOptions {
  stkeys' : station_keys;
  ovr' : bool;
  skip' : bool;
  UserAuth' : list string;
  localdata' : list string;
  ndval' : pyfloat;
  startT' : option UTCDateTime;
  endT' : option UTCDateTime;
  other' : Other
}.
Arguments stkeys {Other}.
Arguments ovr {Other}.
Arguments skip {Other}.
Arguments UserAuth {Other}.
Arguments localdata {Other}.
Arguments ndval {Other}.
Arguments startT {Other}.
Arguments endT {Other}.
Arguments other {Other}.
Arguments mkValues {Other}.
Arguments stkeys' {Other}.
Arguments ovr' {Other}.
Arguments skip' {Other}.
Arguments UserAuth' {Other}.
Arguments localdata' {Other}.
Arguments ndval' {Other}.
Arguments startT' {Other}.
Arguments endT' {Other}.
Arguments other' {Other}.
Arguments mkOptions {Other}.
End OTF.

Module Prep.
(** The options of [get_options_prep_offline] as parsed. *)
Record Values (Other : Type) : Type := mkValues {
  stkeys : string;
  UserAuth : string;
  localdata : option string;
  ndval : bool;
  startT : string;
  endT : string;
  other : Other
}.
(** The options [get_options_prep_offline] returns. *)
Record Options (Other : Type) : Type := mkOptions {
  stkeys' : station_keys;
  UserAuth' : list string;
  localdata' : list string;
  ndval' : pyfloat;
  startT' : option UTCDateTime;
  endT' : option UTCDateTime;
  other' : Other
}.
Arguments stkeys {Other}.
Arguments UserAuth {Other}.
Arguments localdata {Other}.
Arguments ndval {Other}.
Arguments startT {Other}.
Arguments endT {Other}.
Arguments other {Other}.
Arguments mkValues {Other}.
Arguments stkeys' {Other}.
Arguments UserAuth' {Other}.
Arguments localdata' {Other}.
Arguments ndval' {Other}.
Arguments startT' {Other}.
Arguments endT' {Other}.
Arguments other' {Other}.
Arguments mkOptions {Other}.
End Prep.

Module OLProc.
(** The options of [get_options_OL_proc] as parsed. *)
Record Values (Other : Type) : Type := mkValues {
  stkeys : string;
  startT : string;
  endT : string;
  other : Other
}.
(** The options [get_options_OL_proc] returns. *)
Record Options (Other : Type) : Type := mkOptions {
  stkeys' : station_keys;
  startT' : option UTCDateTime;
  endT' : option UTCDateTime;
  other' : Other
}.
Arguments stkeys {Other}.
Arguments startT {Other}.
Arguments endT {Other}.
Arguments other {Other}.
Arguments mkValues {Other}.
Arguments stkeys' {Other}.
Arguments startT' {Other}.
Arguments endT' {Other}.
Arguments other' {Other}.
Arguments mkOptions {Other}.
End OLProc.

Section OptionParsing.
Variable Other : Type.
(** [os.path.exists]. *)
Variable exist : string -> bool.
(** [UTCDateTime(s)], [None] when the constructor raises. *)
Variable to_time : string -> option UTCDateTime.

Definition get_options (opts : OTF.Values Other) (args : list string)
  : res (OTF.Options Other * string) :=
  rbind (check_inputs exist args "Need station database file" "Input file ")
        (fun indb =>
  let stkeys := create_station_keys (OTF.stkeys opts) in
  rbind (construct_time to_time "start" (OTF.startT opts)) (fun startT =>
  rbind (construct_time to_time "end" (OTF.endT opts)) (fun endT =>
  rbind (parse_user_auth (OTF.UserAuth opts)) (fun UserAuth =>
  (* Check existing file behaviour *)
  let '(skip, ovr) :=
    if (OTF.skip opts && OTF.ovr opts)%bool then (false, false)
    else (OTF.skip opts, OTF.ovr opts) in
  let localdata := parse_local_data (OTF.localdata opts) in
  let ndval := nodata_value (OTF.ndval opts) in
  Ret (OTF.mkOptions stkeys ovr skip UserAuth localdata ndval startT endT
                     (OTF.other opts), indb))))).

Definition get_options_prep_offline (opts : Prep.Values Other)
           (args : list string) : res (Prep.Options Other * string) :=
  rbind (check_inputs exist args "Need station database file" "Input file ")
        (fun indb =>
  let stkeys := create_station_keys (Prep.stkeys opts) in
  rbind (construct_time to_time "start" (Prep.startT opts)) (fun startT =>
  rbind (construct_time to_time "end" (Prep.endT opts)) (fun endT =>
  rbind (parse_user_auth (Prep.UserAuth opts)) (fun UserAuth =>
  let localdata := parse_local_data (Prep.localdata opts) in
  let ndval := nodata_value (Prep.ndval opts) in
  Ret (Prep.mkOptions stkeys UserAuth localdata ndval startT endT
                      (Prep.other opts), indb))))).

Definition get_options_OL_proc (opts : OLProc.Values Other)
           (args : list string) : res (OLProc.Options Other * string) :=
  rbind (check_inputs exist args "Need Data Folder" "Input Data Folder ")
        (fun indr =>
  let stkeys := create_station_keys (OLProc.stkeys opts) in
  rbind (construct_time to_time "start" (OLProc.startT opts)) (fun startT =>
  rbind (construct_time to_time "end" (OLProc.endT opts)) (fun endT =>
  Ret (OLProc.mkOptions stkeys startT endT (OLProc.other opts), indr)))).
End OptionParsing.

Arguments get_options {Other}.
Arguments get_options_prep_offline {Other}.
Arguments get_options_OL_proc {Other}.

(** ** Instances of the libraries, for running the code on examples *)

(** Shell-style matching with [*] (any run of characters) and [?] (any one
    character); every other character stands for itself.  It agrees with
    fnmatch on patterns without brackets. *)
Fixpoint glob (pat s : string) : bool :=
  match pat with
  | EmptyString =>
      match s with
      | EmptyString => true
      | String _ _ => false
      end
  | String p pat' =>
      if Ascii.eqb p "*" then
        (fix star (s : string) : bool :=
           (glob pat' s ||
            match s with
            | EmptyString => false
            | String _ s' => star s'
            end)%bool) s
      else
        match s with
        | EmptyString => false
        | String c s' =>
            ((Ascii.eqb p "?" || Ascii.eqb p c) && glob pat' s')%bool
        end
  end.

Definition glob_filter (names : list string) (pat : string) : list string :=
  filter (glob pat) names.

(** A disk: the SAC files by name. *)
Definition Disk : Type := list (string * Stream).

Fixpoint disk_read (disk : Disk) (file : string) : res Stream :=
  match disk with
  | [] => Exc (LibraryError "No such file")
  | (name, st) :: rest =>
      if String.eqb name file then Ret st else disk_read rest file
  end.

(** Merging a stream of two traces of one channel of which the second starts
    one interval after the end of the first; other streams stay as they are. *)
Definition join_adjacent (st : Stream) : res Stream :=
  match st with
  | [tr1; tr2] =>
      if (String.eqb (tr_station tr1) (tr_station tr2)
          && String.eqb (tr_channel tr1) (tr_channel tr2)
          && String.eqb (tr_location tr1) (tr_location tr2)
          && (delta tr1 =? delta tr2)
          && (starttime tr2 =? endtime tr1 + delta tr1))%bool
      then Ret [set_data (data tr1 ++ data tr2) tr1]
      else Ret st
  | _ => Ret st
  end.

(** The samples from the first one at or after [start]. *)
Fixpoint drop_before (t dt start : Z) (d : list pyfloat)
  : Z * list pyfloat :=
  match d with
  | [] => (t, [])
  | _ :: rest => if t <? start then drop_before (t + dt) dt start rest else (t, d)
  end.

(** The samples up to the last one at or before [end_]. *)
Fixpoint keep_until (t dt end_ : Z) (d : list pyfloat) : list pyfloat :=
  match d with
  | [] => []
  | x :: rest => if t <=? end_ then x :: keep_until (t + dt) dt end_ rest else []
  end.

Definition cut_trace (start end_ : UTCDateTime) (tr : Trace) : Trace :=
  let '(t, d) := drop_before (starttime tr) (delta tr) start (data tr) in
  mkTrace (tr_station tr) (tr_channel tr) (tr_location tr) t (delta tr)
          (sac_user9 tr) (keep_until t (delta tr) end_ d).

(** Cutting every trace to the window; traces left without samples go. *)
Definition cut_stream (start end_ : UTCDateTime) (st : Stream) : res Stream :=
  if end_ <? start then Exc (LibraryError "startime is larger than endtime")
  else Ret (filter trace_bool (map (cut_trace start end_) st)).

(** A corner frequency below half the sampling rate of the interval [dt]. *)
Definition below_nyquist (freq : Q) (dt : Z) : bool :=
  negb (Qle_bool (inject_Z 1000000000) (freq * inject_Z (2 * dt))).

(** The number of samples after resampling [n] samples of interval [dt] to
    [rate]: [int(npts / (old_rate / rate))]. *)
Definition resampled_length (rate : Q) (dt : Z) (n : Z) : nat :=
  Z.to_nat (Qfloor (inject_Z n * rate * inject_Z dt / inject_Z 1000000000)).

(** The processing calls as far as the examples need them: a filter raises
    ValueError for a corner frequency at or above half the sampling rate, a
    resampling gives the number of samples of [resampled_length]; the values
    of the samples are not computed. *)
Definition example_signal (op : dsp_op) (dt : Z) (d : list pyfloat)
  : res (list pyfloat) :=
  match op with
  | Detrend _ => Ret d
  | Lowpass freq _ _ => if below_nyquist freq dt then Ret d else Exc ValueError
  | Resample rate => Ret (firstn (resampled_length rate dt (len d)) d)
  | Bandpass freqmin _ _ _ =>
      if below_nyquist freqmin dt then Ret d else Exc ValueError
  end.

(** The library over a disk. *)
Definition disk_library (disk : Disk) : Library :=
  mkLibrary glob_filter (disk_read disk) join_adjacent cut_stream
            (fun _ => Exc TypeError) example_signal.

(** A client that has one stream, under one location code. *)
Definition client_with (loc : string) (st : Stream) : Client :=
  fun _ _ l _ _ _ =>
    if String.eqb l loc then Ret st else Exc (LibraryError "No data available").

(** A client that has no data. *)
Definition empty_client : Client :=
  fun _ _ _ _ _ _ => Exc (LibraryError "No data available").

(** Value of a decimal digit. *)
Definition digit_value (c : ascii) : option Z :=
  let n := nat_of_ascii c in
  if (Nat.leb 48 n && Nat.leb n 57)%bool then Some (Z.of_nat (n - 48)) else None.

(** Value of a string of decimal digits. *)
Fixpoint number (s : string) (acc : Z) : option Z :=
  match s with
  | EmptyString => Some acc
  | String c s' =>
      match digit_value c with
      | Some d => number s' (10 * acc + d)
      | None => None
      end
  end.

(** [UTCDateTime(s)] on dates written year-month-day. *)
Definition iso_date (s : string) : option UTCDateTime :=
  match split "-" s with
  | [y; m; d] =>
      match number y 0, number m 0, number d 0 with
      | Some y, Some m, Some d =>
          if ((1 <=? m) && (m <=? 12) && (1 <=? d) && (d <=? 31))%bool
          then Some (utc y m d 0) else None
      | _, _, _ => None
      end
  | _ => None
  end.

(** A station of the examples. *)
Definition sta_ABC : Station :=
  mkStation "CN" "ABC" "BH" [""] ["PO"].

Definition sta_ABC_nowhere : Station :=
  mkStation "CN" "ABC" "BH" [] ["PO"].

Definition hour : Z := 3600 * 1000000000.

(** A trace of station ABC with one sample an hour. *)
Definition hourly (chan : string) (start : UTCDateTime) (d : list pyfloat)
  : Trace :=
  mkTrace "ABC" chan "" start hour (Some (Num (-12345))) d.

(** A day-long hourly trace. *)
Definition day_trace (chan : string) (y m d : Z) : Trace :=
  hourly chan (utc y m d 0) (repeat (Num 1) 24).

Definition tenth_second : Z := 100000000.

(** A trace of station ABC sampled at 10 Hz. *)
Definition at_10Hz (chan : string) (start : UTCDateTime) (d : list pyfloat)
  : Trace :=
  mkTrace "ABC" chan "" start tenth_second (Some (Num (-12345))) d.

(** Inputs of the examples. *)

(** Z and E traces of 20 samples and an N trace of 10, at 10 Hz. *)
Definition st_short_N : Stream :=
  [at_10Hz "BHZ" 0 (repeat (Num 1) 20);
   at_10Hz "BHE" 0 (repeat (Num 1) 20);
   at_10Hz "BHN" 0 (repeat (Num 1) 10)].

(** Three traces of 20 samples at 10 Hz. *)
Definition st_ZNE_10Hz : Stream :=
  [at_10Hz "BHZ" 0 (repeat (Num 1) 20);
   at_10Hz "BHN" 0 (repeat (Num 2) 20);
   at_10Hz "BHE" 0 (repeat (Num 3) 20)].

(** Files of day 5 of 2015 that hold five seconds at 10 Hz from 01:00:00. *)
Definition disk_10Hz : Disk :=
  [("data/2015.005.CN.ABC..BHZ.SAC",
    [at_10Hz "BHZ" (utc 2015 1 5 3600) (repeat (Num 1) 50)]);
   ("data/2015.005.CN.ABC..BHN.SAC",
    [at_10Hz "BHN" (utc 2015 1 5 3600) (repeat (Num 2) 50)]);
   ("data/2015.005.CN.ABC..BHE.SAC",
    [at_10Hz "BHE" (utc 2015 1 5 3600) (repeat (Num 3) 50)])].

Definition st_no_N : Stream :=
  [hourly "BHZ" 0 [Num 1; Num 2; Num 3];
   hourly "BHE" 0 [Num 1; Num 2; Num 3];
   hourly "BHE" (3 * hour) [Num 4; Num 5; Num 6]].

Definition st_ZNE : Stream :=
  [hourly "BHZ" 0 [Num 1; Num 2; Num 3];
   hourly "BHN" 0 [Num 1; Num 2; Num 3];
   hourly "BHE" 0 [Num 1; Num 2; Num 3]].

(** Two day files of one channel, for the days 5 and 6 of 2015. *)
Definition two_days (chan : string) : Disk :=
  [("data/2015.005.CN.ABC.." +++ chan +++ ".SAC", [day_trace chan 2015 1 5]);
   ("data/2015.006.CN.ABC.." +++ chan +++ ".SAC", [day_trace chan 2015 1 6])].

(** The trace [tr'] is the trace [tr] after the five processing calls, each
    on the samples the call before it left: demeaned, detrended, low-pass
    filtered at 2.5 Hz, resampled to 5 Hz, band-pass filtered between 0.01 and
    0.25 Hz; the interval is that of 5 Hz and the rest of the header stays. *)
Definition processed_in_order (L : Library) (tr tr' : Trace) : Prop :=
  exists d1 d2 d3 d4 d5,
    signal L (Detrend "demean") (delta tr) (data tr) = Ret d1 /\
    signal L (Detrend "linear") (delta tr) d1 = Ret d2 /\
    signal L (Lowpass (5 # 2) 2 true) (delta tr) d2 = Ret d3 /\
    signal L (Resample (5 # 1)) (delta tr) d3 = Ret d4 /\
    signal L (Bandpass (1 # 100) (1 # 4) 2 true) (period_ns (5 # 1)) d4 = Ret d5 /\
    tr' = mkTrace (tr_station tr) (tr_channel tr) (tr_location tr)
                  (starttime tr) (period_ns (5 # 1)) (sac_user9 tr) d5.

(** What a returned time option must be, given the string it was built from. *)
Definition time_option (to_time : string -> option UTCDateTime) (s : string)
           (t : option UTCDateTime) : Prop :=
  (s = "" /\ t = None) \/ (s <> "" /\ exists u, to_time s = Some u /\ t = Some u).

(** An event other than a query of the client. *)
Definition is_local (e : event) : Prop :=
  match e with
  | Query _ => False
  | _ => True
  end.

(** Every event of the log of [m] satisfies [P]. *)
Definition logs {A} (P : event -> Prop) (m : M A) : Prop :=
  forall e, In e (log_of m) -> P e.


(** ** Reference functions for the properties *)

(** [sep.join(l)]. *)
Fixpoint join (sep : string) (l : list string) : string :=
  match l with
  | [] => EmptyString
  | x :: rest =>
      match rest with
      | [] => x
      | _ :: _ => x +++ sep +++ join sep rest
      end
  end.

(** Number of occurrences of a character in a string. *)
Fixpoint count_char (c : ascii) (s : string) : nat :=
  match s with
  | EmptyString => O
  | String d s' => if Ascii.eqb d c then S (count_char c s') else count_char c s'
  end.

(** A time string that the option functions accept: empty, or one that
    [UTCDateTime] constructs a time from. *)
Definition time_accepted (to_time : string -> option UTCDateTime) (s : string)
  : Prop :=
  s = "" \/ exists t, to_time s = Some t.

(** The first list of candidates that is not empty, else none. *)
Fixpoint first_nonempty (candidates : list (list string)) : list string :=
  match candidates with
  | [] => []
  | l :: rest => if len l =? 0 then first_nonempty rest else l
  end.

(** The files a pattern matches, for every alternate network code in turn. *)
Definition matches_each (L : Library) (stdata : list string)
           (pat : string -> string) (nets : list string) : list string :=
  flat_map (fun anet => fnmatch_filter L stdata (pat anet)) nets.

(** The channel list [get_data_NEZ] asks the client for. *)
Definition channels_of (sta : Station) : string :=
  upper (channel sta) +++ "E," +++ upper (channel sta) +++ "N,"
        +++ upper (channel sta) +++ "Z".

(** The stream the client has for a location, when it has three traces. *)
Definition three_traces (client : Client) (sta : Station)
           (start end_ : UTCDateTime) (loc : string) : option Stream :=
  match client (network sta) (station sta) loc (channels_of sta) start end_ with
  | Ret st => if len st =? 3 then Some st else None
  | Exc _ => None
  end.

(** The patterns of the three search stages that count in the single-day
    case, and of the four stages of a day of the two-day case. *)
Definition single_day_patterns (comp : string) (sta : Station)
           (yr jd : string) : list string :=
  [format1 yr jd (upper (network sta)) (upper (station sta))
           (slice_0_2 (upper (channel sta))) (upper comp);
   format2 yr jd (upper (network sta)) (upper (station sta)) (upper comp)]
  ++ map (fun anet => format1 yr jd (upper anet) (upper (station sta))
                              (slice_0_2 (upper (channel sta))) (upper comp))
         (altnet sta).

Definition day_patterns (comp : string) (sta : Station) (yr jd : string)
  : list string :=
  single_day_patterns comp sta yr jd
  ++ map (fun anet => format2 yr jd (upper anet) (upper (station sta))
                              (upper comp))
         (altnet sta).

(** The patterns that decide the candidate files of a window. *)
Definition window_patterns (comp : string) (sta : Station)
           (start end_ : UTCDateTime) : list string :=
  match search_path start end_ with
  | SingleDay =>
      single_day_patterns comp sta (strftime_Y start) (strftime_j start)
  | TwoDays =>
      day_patterns comp sta (strftime_Y start) (strftime_j start)
      ++ day_patterns comp sta (strftime_Y end_) (strftime_j end_)
  end.

(** An event that is a file-name search. *)
Definition is_search (e : event) : Prop :=
  match e with
  | Search _ => True
  | _ => False
  end.

(** The station keys returned for the string given: the empty string as it
    is, else the non-empty list of its comma-free parts. *)
Definition keys_of (given : string) (k : station_keys) : Prop :=
  (given = "" /\ k = KeyString "") \/
  (given <> "" /\
   exists l, k = KeyList l /\ l <> [] /\ join "," l = given /\
             Forall (fun part => count_char "," part = O) l).

(** The local data paths returned for the option given: none without the
    option, else the non-empty list of the comma-free parts of its value. *)
Definition paths_of (given : option string) (l : list string) : Prop :=
  match given with
  | None => l = []
  | Some s => l <> [] /\ join "," l = s /\
              Forall (fun part => count_char "," part = O) l
  end.

(** What [parse_localdata_for_comp] returns: the error flag with no stream,
    or no error flag with a stream. *)
Definition flag_or_stream (r : bool * option Stream) : Prop :=
  match r with
  | (true, None) => True
  | (false, Some _) => True
  | _ => False
  end.

(** The stream [out] is the trim to the window of a stream of one trace that
    covers the window, and its first trace holds no NaN. *)
Definition covers_clean (L : Library) (start end_ : UTCDateTime) (out : Stream)
  : Prop :=
  exists tr tr',
    stream_trim L start end_ [tr] = Ret out /\
    starttime tr <= start /\ endtime tr >= end_ /\
    index0 out = Ret tr' /\ has_nan tr' = false.

(** The station of the examples with two location codes. *)
Definition sta_ABC_two_locations : Station :=
  mkStation "CN" "ABC" "BH" ["00"; ""] ["PO"].

(** * Properties *)

(** ** The monad *)

Lemma bind_ret_inv {A B} (m : M A) (f : A -> M B) l b :
  bind m f = (l, Ret b) ->
  exists l1 a l2, m = (l1, Ret a) /\ f a = (l2, Ret b) /\ l = l1 ++ l2.
Proof.
  unfold bind. destruct m as [l1 [a | e]]; [ | discriminate ].
  destruct (f a) as [l2 r] eqn:E. intros H. inversion H; subst.
  exists l1, a, l2. auto.
Qed.

Lemma result_of_bind {A B} (m : M A) (f : A -> M B) a :
  result_of m = Ret a -> result_of (bind m f) = result_of (f a).
Proof.
  unfold result_of, bind. destruct m as [l r]. simpl. intros ->.
  destruct (f a). reflexivity.
Qed.

Lemma log_of_bind {A B} (m : M A) (f : A -> M B) e :
  In e (log_of (bind m f)) ->
  In e (log_of m) \/ exists a, result_of m = Ret a /\ In e (log_of (f a)).
Proof.
  unfold log_of, result_of, bind. destruct m as [l [a | x]]; simpl; auto.
  destruct (f a) as [l' r] eqn:E. simpl. intros H.
  apply in_app_or in H. destruct H; auto.
  right. exists a. rewrite E. auto.
Qed.

Lemma logs_ret {A} P (a : A) : logs P (ret a).
Proof. intros e []. Qed.

Lemma logs_lift {A} P (r : res A) : logs P (lift r).
Proof. intros e []. Qed.

Lemma logs_tell P e : P e -> logs P (tell e).
Proof. intros H x [<- | []]. exact H. Qed.

Lemma logs_bind {A B} P (m : M A) (f : A -> M B) :
  logs P m -> (forall a, result_of m = Ret a -> logs P (f a)) -> logs P (bind m f).
Proof.
  intros Hm Hf e H. apply log_of_bind in H. destruct H as [H | (a & Ha & H)].
  - apply Hm, H.
  - apply (Hf a Ha), H.
Qed.

(** ** The option post-processors *)

Lemma construct_time_inv to_time which s t :
  construct_time to_time which s = Ret t -> time_option to_time s t.
Proof.
  unfold construct_time, time_option, slen.
  destruct s as [ | c s]; simpl.
  - intros H. inversion H. auto.
  - destruct (to_time (String c s)) as [u | ] eqn:E; [ | discriminate ].
    intros H. inversion H; subst. right. split; [ discriminate | eauto ].
Qed.

Lemma construct_time_some to_time which s u :
  s <> "" -> to_time s = Some u -> construct_time to_time which s = Ret (Some u).
Proof.
  unfold construct_time, slen. intros Hs Hu.
  destruct s as [ | c s]; [ congruence | ].
  simpl. rewrite Hu. reflexivity.
Qed.

Lemma rbind_ret_inv {A B} (r : res A) (f : A -> res B) b :
  rbind r f = Ret b -> exists a, r = Ret a /\ f a = Ret b.
Proof. destruct r; simpl; [ eauto | discriminate ]. Qed.

(** From [H : rbind r f = Ret b] to the value [a] of [r] and [H : f a = Ret b]. *)
Ltac rbind_inv H a Ha :=
  apply rbind_ret_inv in H; destruct H as (a & Ha & H).

(** C8: when [get_options] returns, [skip] and [ovr] are both [False] if both
    flags were given, and otherwise each is as it was given. *)
Theorem get_options_skip_ovr :
  forall (Other : Type) exist to_time (opts : OTF.Values Other) args o indb,
    get_options exist to_time opts args = Ret (o, indb) ->
    ((OTF.skip opts && OTF.ovr opts)%bool = true ->
       OTF.skip' o = false /\ OTF.ovr' o = false) /\
    ((OTF.skip opts && OTF.ovr opts)%bool = false ->
       OTF.skip' o = OTF.skip opts /\ OTF.ovr' o = OTF.ovr opts).
Proof.
  intros Other exist to_time opts args o indb H.
  unfold get_options in H.
  rbind_inv H db Hdb. rbind_inv H t1 H1. rbind_inv H t2 H2.
  rbind_inv H ua Hua.
  destruct (OTF.skip opts && OTF.ovr opts)%bool eqn:E;
    inversion H; subst; simpl; split; intros; auto; discriminate.
Qed.

(** Both flags given on a command line that is accepted. *)
Lemma get_options_skip_ovr_witness :
  exists o,
    get_options (fun _ => true) iso_date
      (OTF.mkValues "" true true "" None false "" "" tt) ["stations.pkl"]
    = Ret (o, "stations.pkl")
    /\ OTF.skip' o = false /\ OTF.ovr' o = false.
Proof.
  eexists. split; [ reflexivity | ].
  apply (get_options_skip_ovr unit (fun _ => true) iso_date
           (OTF.mkValues "" true true "" None false "" "" tt)
           ["stations.pkl"] _ "stations.pkl" eq_refl).
  reflexivity.
Defined.

(** C10: in the options each of the three functions returns, [startT] and
    [endT] are [None] for an empty string and the parsed time otherwise, and an
    end time before the start time is returned as it was parsed. *)
Theorem start_end_times_unrelated :
  forall (Other : Type) exist to_time,
    (forall (opts : OTF.Values Other) args o p,
        get_options exist to_time opts args = Ret (o, p) ->
        time_option to_time (OTF.startT opts) (OTF.startT' o) /\
        time_option to_time (OTF.endT opts) (OTF.endT' o)) /\
    (forall (opts : Prep.Values Other) args o p,
        get_options_prep_offline exist to_time opts args = Ret (o, p) ->
        time_option to_time (Prep.startT opts) (Prep.startT' o) /\
        time_option to_time (Prep.endT opts) (Prep.endT' o)) /\
    (forall (opts : OLProc.Values Other) args o p,
        get_options_OL_proc exist to_time opts args = Ret (o, p) ->
        time_option to_time (OLProc.startT opts) (OLProc.startT' o) /\
        time_option to_time (OLProc.endT opts) (OLProc.endT' o)) /\
    (forall (opts : OTF.Values Other) indb ua ts te,
        exist indb = true ->
        parse_user_auth (OTF.UserAuth opts) = Ret ua ->
        OTF.startT opts <> "" -> to_time (OTF.startT opts) = Some ts ->
        OTF.endT opts <> "" -> to_time (OTF.endT opts) = Some te ->
        te < ts ->
        exists o, get_options exist to_time opts [indb] = Ret (o, indb) /\
                  OTF.startT' o = Some ts /\ OTF.endT' o = Some te) /\
    (forall (opts : Prep.Values Other) indb ua ts te,
        exist indb = true ->
        parse_user_auth (Prep.UserAuth opts) = Ret ua ->
        Prep.startT opts <> "" -> to_time (Prep.startT opts) = Some ts ->
        Prep.endT opts <> "" -> to_time (Prep.endT opts) = Some te ->
        te < ts ->
        exists o, get_options_prep_offline exist to_time opts [indb] = Ret (o, indb) /\
                  Prep.startT' o = Some ts /\ Prep.endT' o = Some te) /\
    (forall (opts : OLProc.Values Other) indr ts te,
        exist indr = true ->
        OLProc.startT opts <> "" -> to_time (OLProc.startT opts) = Some ts ->
        OLProc.endT opts <> "" -> to_time (OLProc.endT opts) = Some te ->
        te < ts ->
        exists o, get_options_OL_proc exist to_time opts [indr] = Ret (o, indr) /\
                  OLProc.startT' o = Some ts /\ OLProc.endT' o = Some te).
Proof.
  intros Other exist to_time.
  split; [ | split; [ | split; [ | split; [ | split ] ] ] ].
  - intros opts args o p H. unfold get_options in H.
    rbind_inv H db Hdb. rbind_inv H t1 H1. rbind_inv H t2 H2.
    rbind_inv H ua Hua.
    destruct (OTF.skip opts && OTF.ovr opts)%bool;
      inversion H; subst; simpl; split; eapply construct_time_inv; eassumption.
  - intros opts args o p H. unfold get_options_prep_offline in H.
    rbind_inv H db Hdb. rbind_inv H t1 H1. rbind_inv H t2 H2.
    rbind_inv H ua Hua.
    inversion H; subst; simpl; split; eapply construct_time_inv; eassumption.
  - intros opts args o p H. unfold get_options_OL_proc in H.
    rbind_inv H db Hdb. rbind_inv H t1 H1. rbind_inv H t2 H2.
    inversion H; subst; simpl; split; eapply construct_time_inv; eassumption.
  - intros opts indb ua ts te Hex Hua Hs Hts He Hte _.
    unfold get_options, check_inputs. rewrite Hex. simpl.
    rewrite (construct_time_some to_time "start" _ ts Hs Hts). simpl.
    rewrite (construct_time_some to_time "end" _ te He Hte). simpl.
    rewrite Hua. simpl.
    destruct (OTF.skip opts && OTF.ovr opts)%bool; eexists; repeat split.
  - intros opts indb ua ts te Hex Hua Hs Hts He Hte _.
    unfold get_options_prep_offline, check_inputs. rewrite Hex. simpl.
    rewrite (construct_time_some to_time "start" _ ts Hs Hts). simpl.
    rewrite (construct_time_some to_time "end" _ te He Hte). simpl.
    rewrite Hua. simpl. eexists; repeat split.
  - intros opts indr ts te Hex Hs Hts He Hte _.
    unfold get_options_OL_proc, check_inputs. rewrite Hex. simpl.
    rewrite (construct_time_some to_time "start" _ ts Hs Hts). simpl.
    rewrite (construct_time_some to_time "end" _ te He Hte). simpl.
    eexists; repeat split.
Qed.

(** An end time a year before the start time goes through [get_options]. *)
Lemma start_end_times_unrelated_witness :
  exists o,
    get_options (fun _ => true) iso_date
      (OTF.mkValues "" false false "" None false "2015-01-05" "2014-01-05" tt)
      ["stations.pkl"]
    = Ret (o, "stations.pkl")
    /\ OTF.startT' o = Some (utc 2015 1 5 0)
    /\ OTF.endT' o = Some (utc 2014 1 5 0).
Proof.
  apply (proj1 (proj2 (proj2 (proj2
           (start_end_times_unrelated unit (fun _ => true) iso_date)))))
    with (ua := []); try reflexivity; discriminate.
Defined.

(** ** The branch of parse_localdata_for_comp *)

Lemma same_day_single_day start end_ :
  same_calendar_day start end_ = true -> search_path start end_ = SingleDay.
Proof.
  unfold same_calendar_day, search_path, strftime_j, julday, year.
  intros H. apply Z.eqb_eq in H. rewrite H.
  rewrite String.eqb_refl. reflexivity.
Qed.

(** C4: a window within one calendar day takes the single-day path, but so
    does the window from 2015-01-05 to 2016-01-05, whose ends are a year
    apart: the test of line 455 compares the days of the year only. *)
Theorem single_day_path_across_years :
  (forall start end_,
      same_calendar_day start end_ = true -> search_path start end_ = SingleDay) /\
  same_calendar_day (utc 2015 1 5 0) (utc 2016 1 5 0) = false /\
  search_path (utc 2015 1 5 0) (utc 2016 1 5 0) = SingleDay /\
  (forall L comp stdata sta ndval,
      parse_localdata_for_comp L comp stdata sta (utc 2015 1 5 0) (utc 2016 1 5 0) ndval
      = (lclfiles <- lclfiles_single_day L comp stdata sta "2015" "005" ;;
         if len lclfiles =? 0 then ret (true, None)
         else read_single_day L lclfiles (utc 2015 1 5 0) (utc 2016 1 5 0) ndval)).
Proof.
  split; [ exact same_day_single_day | ].
  split; [ reflexivity | ].
  split; [ reflexivity | ].
  intros. reflexivity.
Qed.

(** ** The checks of get_data_NEZ *)

Lemma lengths_equal_Z_E st trZ trE :
  index0 (select "Z" st) = Ret trZ ->
  index0 (select "E" st) = Ret trE ->
  lengths_equal st = Ret (len (data trZ) =? len (data trE)).
Proof.
  unfold lengths_equal. intros -> ->. simpl.
  rewrite Z.eqb_refl, Bool.andb_true_r. reflexivity.
Qed.

(** C1: the length test of lines 725-728 compares the Z trace with the E trace
    and with the Z trace again, so an N trace of another length passes: a
    stream sampled at 10 Hz with 20, 20 and 10 samples on Z, E and N goes on
    to the processing, whatever the library, and with processing calls that
    return it comes back as (False, trN, trE, trZ) with an N trace half as
    long as the others. *)
Theorem shorter_N_trace_passes :
  (forall st trZ trE,
      index0 (select "Z" st) = Ret trZ ->
      index0 (select "E" st) = Ret trE ->
      lengths_equal st = Ret (len (data trZ) =? len (data trE))) /\
  map (fun tr => (tr_channel tr, len (data tr))) st_short_N
  = [("BHZ", 20); ("BHE", 20); ("BHN", 10)] /\
  (forall L,
      get_data_NEZ L (client_with "" st_short_N) sta_ABC 0 (2 * hour) [] NaN
      = ([Query ""], rbind (process L st_short_N) extract)) /\
  (exists trN trE trZ,
      get_data_NEZ (disk_library []) (client_with "" st_short_N) sta_ABC
                   0 (2 * hour) [] NaN
      = ([Query ""], Ret (false, Some trN, Some trE, Some trZ)) /\
      (tr_channel trN, len (data trN)) = ("BHN", 5) /\
      (tr_channel trE, len (data trE)) = ("BHE", 10) /\
      (tr_channel trZ, len (data trZ)) = ("BHZ", 10)).
Proof.
  split; [ exact lengths_equal_Z_E | ].
  split; [ reflexivity | ].
  split; [ intros L; reflexivity | ].
  do 3 eexists. split; [ vm_compute; reflexivity | ].
  repeat split.
Qed.

Lemma missing_component_raises L st :
  select "Z" st = [] \/ select "E" st = [] \/ select "N" st = [] ->
  check_and_process L (Bound (Some st)) = Exc IndexError.
Proof.
  intros H.
  unfold check_and_process, component_missing, report_missing.
  change (str0 "E") with "E".
  destruct (select "Z" st) as [ | trZ restZ] eqn:EZ; [ reflexivity | ].
  simpl.
  destruct (trace_bool trZ); simpl.
  - destruct (select "E" st) as [ | trE restE] eqn:EE; [ reflexivity | ].
    simpl.
    destruct (select "N" st) as [ | trN restN] eqn:EN; [ reflexivity | ].
    destruct H as [H | [H | H]]; discriminate.
  - destruct (select "E" st) as [ | trE restE] eqn:EE; [ reflexivity | ].
    simpl.
    destruct (select "N" st) as [ | trN restN] eqn:EN; [ reflexivity | ].
    destruct H as [H | [H | H]]; discriminate.
Qed.

(** C2: when the client answers the first location with three traces among
    which a Z, an E or an N trace is missing, [get_data_NEZ] raises IndexError
    ([st.select(component=...)[0]] on an empty selection); it does not return
    the error result. *)
Theorem missing_component_is_IndexError :
  forall L (client : Client) sta start end_ ndval loc rest st,
    location sta = loc :: rest ->
    (forall channels,
        client (network sta) (station sta) loc channels start end_ = Ret st) ->
    len st = 3 ->
    select "Z" st = [] \/ select "E" st = [] \/ select "N" st = [] ->
    get_data_NEZ L client sta start end_ [] ndval = ([Query loc], Exc IndexError).
Proof.
  intros L client sta start end_ ndval loc rest st Hloc Hcl Hlen Hmiss.
  unfold get_data_NEZ, acquire, local_data. cbn -[check_and_process].
  rewrite Hloc. cbn -[check_and_process]. rewrite Hcl, Hlen.
  cbn -[check_and_process].
  rewrite (missing_component_raises L st Hmiss). reflexivity.
Qed.

(** A stream of three traces, on Z, E and E. *)
Lemma missing_component_is_IndexError_witness :
  get_data_NEZ (disk_library []) (client_with "" st_no_N) sta_ABC 0 (2 * hour) [] NaN
  = ([Query ""], Exc IndexError).
Proof.
  apply (missing_component_is_IndexError (disk_library []) (client_with "" st_no_N)
           sta_ABC 0 (2 * hour) NaN "" [] st_no_N).
  - reflexivity.
  - intros channels. reflexivity.
  - reflexivity.
  - right. right. reflexivity.
Defined.

(** ** The single-day search *)

Lemma log_of_search L stdata pat e :
  In e (log_of (search L stdata pat)) -> e = Search pat.
Proof. simpl. intros [H | []]. auto. Qed.

Lemma log_of_search_each L stdata pat nets e :
  In e (log_of (search_each L stdata pat nets)) ->
  exists anet, In anet nets /\ e = Search (pat anet).
Proof.
  induction nets as [ | anet rest IH]; simpl; [ intros [] | ].
  destruct (search_each L stdata pat rest) as [l r] eqn:E.
  unfold log_of in *. simpl in IH.
  destruct r as [more | x]; simpl; intros [H | H].
  - exists anet. auto.
  - apply in_app_or in H. destruct H as [H | []].
    destruct (IH H) as (a & Ha & He). exists a. auto.
  - exists anet. auto.
  - destruct (IH H) as (a & Ha & He). exists a. auto.
Qed.

(** C3: in the single-day case every search is for Format 1 or Format 2 with
    the station's own network code, or for Format 1 with an alternate code;
    the fourth stage builds its pattern from [sta.network], so a file that only
    Format 2 with an alternate code matches is not found and the function
    returns (True, None). *)
Theorem single_day_stage4_own_network :
  (forall L comp stdata sta yr jd e,
      In e (log_of (lclfiles_single_day L comp stdata sta yr jd)) ->
      e = Search (format1 yr jd (upper (network sta)) (upper (station sta))
                          (slice_0_2 (upper (channel sta))) (upper comp)) \/
      e = Search (format2 yr jd (upper (network sta)) (upper (station sta))
                          (upper comp)) \/
      exists anet, In anet (altnet sta) /\
        e = Search (format1 yr jd (upper anet) (upper (station sta))
                            (slice_0_2 (upper (channel sta))) (upper comp))) /\
  glob_filter ["data/2015.005.PO.ABC..HHZ.SAC"]
              (format2 "2015" "005" (upper "PO") (upper "ABC") (upper "Z"))
  = ["data/2015.005.PO.ABC..HHZ.SAC"] /\
  (forall disk,
      parse_localdata_for_comp (disk_library disk) "Z"
        ["data/2015.005.PO.ABC..HHZ.SAC"] sta_ABC
        (utc 2015 1 5 3600) (utc 2015 1 5 7200) NaN
      = ([Search "*/2015.005.CN.ABC.*.BHZ.SAC";
          Search "*/2015.005.CN.ABC.*.*Z.SAC";
          Search "*/2015.005.PO.ABC.*.BHZ.SAC";
          Search "*/2015.005.CN.ABC.*.*Z.SAC"],
         Ret (true, None))).
Proof.
  split; [ | split; [ reflexivity | intros; reflexivity ] ].
  intros L comp stdata sta yr jd e H.
  unfold lclfiles_single_day in H.
  apply log_of_bind in H. destruct H as [H | (l1 & _ & H)].
  { left. apply log_of_search in H. exact H. }
  apply log_of_bind in H. destruct H as [H | (l2 & _ & H)].
  { destruct (len l1 =? 0); [ | destruct H ].
    right. left. apply log_of_search in H. exact H. }
  apply log_of_bind in H. destruct H as [H | (l3 & _ & H)].
  { destruct (len l2 =? 0); [ | destruct H ].
    right. right. apply log_of_search_each in H. exact H. }
  apply log_of_bind in H. destruct H as [H | (l4 & _ & H)].
  { destruct (len l3 =? 0); [ | destruct H ].
    right. left. apply log_of_search_each in H.
    destruct H as (anet & _ & H). exact H. }
  destruct H.
Qed.

(** ** Processing and result of get_data_NEZ *)

Lemma apply_op_ret L op tr tr' :
  apply_op L op tr = Ret tr' ->
  exists d,
    signal L op (delta tr) (data tr) = Ret d /\
    tr' = mkTrace (tr_station tr) (tr_channel tr) (tr_location tr)
                  (starttime tr)
                  (match op with
                   | Resample r => period_ns r
                   | _ => delta tr
                   end)
                  (sac_user9 tr) d.
Proof.
  unfold apply_op. intros H. rbind_inv H d Hd.
  inversion H. exists d. auto.
Qed.

Lemma stream_op_each L op st :
  forall st', stream_op L op st = Ret st' ->
              Forall2 (fun tr tr' => apply_op L op tr = Ret tr') st st'.
Proof.
  induction st as [ | tr rest IH]; intros st' H; cbn [stream_op] in H.
  - inversion H. constructor.
  - rbind_inv H tr' Htr. rbind_inv H rest' Hrest. inversion H; subst.
    constructor; [ exact Htr | apply IH, Hrest ].
Qed.

Lemma Forall2_chain {A} (R1 R2 : A -> A -> Prop) l1 :
  forall l2 l3,
    Forall2 R1 l1 l2 -> Forall2 R2 l2 l3 ->
    Forall2 (fun x z => exists y, R1 x y /\ R2 y z) l1 l3.
Proof.
  induction l1 as [ | x l1 IH]; intros l2 l3 H12 H23.
  - inversion H12; subst. inversion H23; subst. constructor.
  - inversion H12; subst. inversion H23; subst.
    constructor; [ eauto | eapply IH; eassumption ].
Qed.

Lemma Forall2_weaken {A} (R S : A -> A -> Prop) l l' :
  (forall x y, R x y -> S x y) -> Forall2 R l l' -> Forall2 S l l'.
Proof. intros HRS H. induction H; constructor; auto. Qed.

Lemma process_each L st st' :
  process L st = Ret st' -> Forall2 (processed_in_order L) st st'.
Proof.
  unfold process, detrend, filter_lowpass, resample, filter_bandpass.
  intros H.
  rbind_inv H st1 H1. rbind_inv H st2 H2. rbind_inv H st3 H3.
  rbind_inv H st4 H4. rbind_inv H st5 H5. inversion H; subst st5.
  apply stream_op_each in H1, H2, H3, H4, H5.
  pose proof (Forall2_chain _ _ _ _ _
                (Forall2_chain _ _ _ _ _
                   (Forall2_chain _ _ _ _ _
                      (Forall2_chain _ _ _ _ _ H1 H2) H3) H4) H5) as Hall.
  revert Hall. apply Forall2_weaken.
  intros tr tr' (t4 & (t3 & (t2 & (t1 & E1 & E2) & E3) & E4) & E5).
  apply apply_op_ret in E1. destruct E1 as (d1 & S1 & ->).
  apply apply_op_ret in E2. destruct E2 as (d2 & S2 & ->).
  apply apply_op_ret in E3. destruct E3 as (d3 & S3 & ->).
  apply apply_op_ret in E4. destruct E4 as (d4 & S4 & ->).
  apply apply_op_ret in E5. destruct E5 as (d5 & S5 & ->).
  cbn [delta data tr_station tr_channel tr_location starttime sac_user9]
    in S2, S3, S4, S5 |- *.
  exists d1, d2, d3, d4, d5. auto 10.
Qed.

Lemma processed_component L c tr tr' :
  processed_in_order L tr tr' -> has_component c tr' = has_component c tr.
Proof.
  intros (d1 & d2 & d3 & d4 & d5 & _ & _ & _ & _ & _ & ->). reflexivity.
Qed.

Lemma select_each L c st st' :
  Forall2 (processed_in_order L) st st' ->
  Forall2 (processed_in_order L) (select c st) (select c st').
Proof.
  unfold select. intros H. induction H as [ | tr tr' st st' Htr Hst IH];
    cbn [filter]; [ constructor | ].
  rewrite (processed_component L c tr tr' Htr).
  destruct (has_component c tr); [ constructor; assumption | exact IH ].
Qed.

Lemma process_select L c st st' tr :
  process L st = Ret st' ->
  index0 (select c st) = Ret tr ->
  exists tr', index0 (select c st') = Ret tr' /\ processed_in_order L tr tr'.
Proof.
  intros Hp Htr. apply process_each, (select_each L c) in Hp.
  destruct Hp as [ | x x' l l' Hx Hl]; [ discriminate | ].
  inversion Htr; subst. exists x'. split; [ reflexivity | exact Hx ].
Qed.

Lemma component_missing_false st :
  component_missing st = Ret false ->
  exists trZ trE trN,
    index0 (select "Z" st) = Ret trZ /\ index0 (select "E" st) = Ret trE /\
    index0 (select "N" st) = Ret trN.
Proof.
  unfold component_missing. change (str0 "E") with "E".
  destruct (select "Z" st) as [ | trZ restZ]; [ discriminate | ].
  cbn [index0 rbind]. destruct (trace_bool trZ); [ | discriminate ].
  cbn [negb].
  destruct (select "E" st) as [ | trE restE]; [ discriminate | ].
  cbn [stream_bool negb].
  destruct (select "N" st) as [ | trN restN]; [ discriminate | ].
  intros _. exists trZ, trE, trN. auto.
Qed.

(** What the function returns for a stream that passed the two checks and
    that the processing calls returned as [st']: the processed first N, E
    and Z traces. *)
Lemma checked_and_processed L st st' n e z :
  component_missing st = Ret false ->
  lengths_equal st = Ret true ->
  process L st = Ret st' ->
  index0 (select "N" st) = Ret n ->
  index0 (select "E" st) = Ret e ->
  index0 (select "Z" st) = Ret z ->
  exists trN trE trZ,
    processed_in_order L n trN /\ processed_in_order L e trE /\
    processed_in_order L z trZ /\
    check_and_process L (Bound (Some st))
    = Ret (false, Some trN, Some trE, Some trZ).
Proof.
  intros Hmiss Hlen Hp HN HE HZ.
  destruct (process_select L "N" st st' n Hp HN) as (trN & EN & PN).
  destruct (process_select L "E" st st' e Hp HE) as (trE & EE & PE).
  destruct (process_select L "Z" st st' z Hp HZ) as (trZ & EZ & PZ).
  exists trN, trE, trZ. repeat split; try assumption.
  unfold check_and_process. rewrite Hmiss. cbn [rbind]. rewrite Hlen.
  cbn [rbind negb]. rewrite Hp. cbn [rbind].
  unfold extract. rewrite EE, EN, EZ. reflexivity.
Qed.

Lemma checked_and_raised L st x :
  component_missing st = Ret false ->
  lengths_equal st = Ret true ->
  process L st = Exc x ->
  check_and_process L (Bound (Some st)) = Exc x.
Proof.
  intros Hmiss Hlen Hp.
  unfold check_and_process. rewrite Hmiss. cbn [rbind]. rewrite Hlen.
  cbn [rbind negb]. rewrite Hp. reflexivity.
Qed.

Lemma get_data_NEZ_acquired L client sta start end_ stdata ndval log erd st :
  acquire L client sta start end_ stdata ndval = (log, Ret (erd, st)) ->
  get_data_NEZ L client sta start end_ stdata ndval
  = (log, check_and_process L st).
Proof.
  intros Hacq. unfold get_data_NEZ. rewrite Hacq.
  unfold bind, lift. rewrite app_nil_r. reflexivity.
Qed.

(** C7: a stream that passes the component test and the length test is
    demeaned, detrended, low-pass filtered at 2.5 Hz, resampled to 5 Hz and
    band-pass filtered between 0.01 and 0.25 Hz, each call on what the call
    before it left; when the five calls return, the function returns
    (False, trN, trE, trZ), the traces being the first N, E and Z traces so
    processed, and when a call raises, its exception leaves the function. *)
Theorem processed_in_order_and_returned :
  forall L client sta start end_ stdata ndval log erd st,
    acquire L client sta start end_ stdata ndval
    = (log, Ret (erd, Bound (Some st))) ->
    component_missing st = Ret false ->
    lengths_equal st = Ret true ->
    (forall st',
        process L st = Ret st' ->
        Forall2 (processed_in_order L) st st' /\
        exists n e z trN trE trZ,
          index0 (select "N" st) = Ret n /\ index0 (select "E" st) = Ret e /\
          index0 (select "Z" st) = Ret z /\
          processed_in_order L n trN /\ processed_in_order L e trE /\
          processed_in_order L z trZ /\
          get_data_NEZ L client sta start end_ stdata ndval
          = (log, Ret (false, Some trN, Some trE, Some trZ))) /\
    (forall x,
        process L st = Exc x ->
        get_data_NEZ L client sta start end_ stdata ndval = (log, Exc x)).
Proof.
  intros L client sta start end_ stdata ndval log erd st Hacq Hmiss Hlen.
  rewrite (get_data_NEZ_acquired _ _ _ _ _ _ _ _ _ _ Hacq).
  split.
  - intros st' Hp. split; [ apply process_each, Hp | ].
    destruct (component_missing_false st Hmiss) as (z & e & n & HZ & HE & HN).
    destruct (checked_and_processed L st st' n e z Hmiss Hlen Hp HN HE HZ)
      as (trN & trE & trZ & PN & PE & PZ & Hres).
    exists n, e, z, trN, trE, trZ. rewrite Hres. auto 10.
  - intros x Hp. rewrite (checked_and_raised L st x Hmiss Hlen Hp). reflexivity.
Qed.

(** Three traces of 20 samples at 10 Hz from the client. *)
Lemma processed_in_order_and_returned_witness :
  exists n e z trN trE trZ,
    index0 (select "N" st_ZNE_10Hz) = Ret n /\
    index0 (select "E" st_ZNE_10Hz) = Ret e /\
    index0 (select "Z" st_ZNE_10Hz) = Ret z /\
    processed_in_order (disk_library []) n trN /\
    processed_in_order (disk_library []) e trE /\
    processed_in_order (disk_library []) z trZ /\
    get_data_NEZ (disk_library []) (client_with "" st_ZNE_10Hz) sta_ABC
                 0 (2 * hour) [] NaN
    = ([Query ""], Ret (false, Some trN, Some trE, Some trZ)).
Proof.
  apply (proj1 (processed_in_order_and_returned (disk_library [])
                  (client_with "" st_ZNE_10Hz) sta_ABC 0 (2 * hour) [] NaN
                  [Query ""] false st_ZNE_10Hz eq_refl eq_refl eq_refl)
           [mkTrace "ABC" "BHZ" "" 0 200000000 (Some (Num (-12345)))
                    (repeat (Num 1) 10);
            mkTrace "ABC" "BHN" "" 0 200000000 (Some (Num (-12345)))
                    (repeat (Num 2) 10);
            mkTrace "ABC" "BHE" "" 0 200000000 (Some (Num (-12345)))
                    (repeat (Num 3) 10)]).
  vm_compute. reflexivity.
Defined.

(** Three traces sampled once an hour pass both checks, and the low-pass
    filter at 2.5 Hz raises ValueError: the call does not return. *)
Lemma checks_passed_filter_raises :
  component_missing st_ZNE = Ret false /\
  lengths_equal st_ZNE = Ret true /\
  get_data_NEZ (disk_library []) (client_with "" st_ZNE) sta_ABC
               0 (2 * hour) [] NaN
  = ([Query ""], Exc ValueError).
Proof. repeat split. Qed.

(** ** The unassigned stream *)

(** C9: when no local stream is resolved (no local path, or a local search
    that returns its error flag for some component) and [sta.location] is
    empty, [st] is read at line 709 before any assignment and the call raises
    UnboundLocalError. *)
Theorem no_location_unbound_stream :
  forall L client sta start end_ stdata ndval,
    location sta = [] ->
    (stdata = [] \/
     exists errZ stZ errN stN errE stE,
       result_of (parse_localdata_for_comp L "Z" stdata sta start end_ ndval)
       = Ret (errZ, stZ) /\
       result_of (parse_localdata_for_comp L "N" stdata sta start end_ ndval)
       = Ret (errN, stN) /\
       result_of (parse_localdata_for_comp L "E" stdata sta start end_ ndval)
       = Ret (errE, stE) /\
       (errZ || errN || errE)%bool = true) ->
    result_of (get_data_NEZ L client sta start end_ stdata ndval)
    = Exc UnboundLocalError.
Proof.
  intros L client sta start end_ stdata ndval Hloc H.
  assert (Hlocal : result_of (local_data L sta start end_ stdata ndval)
                   = Ret (true, Unbound)).
  { unfold local_data. destruct H as [-> | H]; [ reflexivity | ].
    destruct H as (errZ & stZ & errN & stN & errE & stE & HZ & HN & HE & Herr).
    destruct (0 <? len stdata); [ | reflexivity ].
    rewrite (result_of_bind _ _ _ HZ).
    rewrite (result_of_bind _ _ _ HN).
    rewrite (result_of_bind _ _ _ HE).
    rewrite Herr. reflexivity. }
  unfold get_data_NEZ, acquire.
  destruct (local_data L sta start end_ stdata ndval) as [l r].
  unfold result_of in Hlocal. simpl in Hlocal. subst r.
  rewrite Hloc. reflexivity.
Qed.

(** A local path that matches no pattern and a station without location
    codes. *)
Lemma no_location_unbound_stream_witness :
  result_of (get_data_NEZ (disk_library []) empty_client sta_ABC_nowhere
                          (utc 2015 1 5 3600) (utc 2015 1 5 7200)
                          ["data/readme.txt"] NaN)
  = Exc UnboundLocalError.
Proof.
  apply no_location_unbound_stream; [ reflexivity | right ].
  exists true, None, true, None, true, None.
  repeat split; reflexivity.
Defined.

(** ** What the local search calls *)

Lemma result_of_bind_inv {A B} (m : M A) (f : A -> M B) b :
  result_of (bind m f) = Ret b ->
  exists a, result_of m = Ret a /\ result_of (f a) = Ret b.
Proof.
  unfold result_of, bind. destruct m as [l [a | e]]; simpl; [ | discriminate ].
  destruct (f a) as [l' r] eqn:E. simpl. intros ->.
  exists a. rewrite E. auto.
Qed.

Lemma result_of_read L sacfile st :
  result_of (read L sacfile) = Ret st -> obspy_read L sacfile = Ret st.
Proof.
  unfold read, result_of, bind, tell, lift. simpl.
  destruct (obspy_read L sacfile); auto.
Qed.

(** One step of a proof that every event of a log satisfies a predicate. *)
Ltac logs_step :=
  match goal with
  | |- logs _ (bind _ _) => apply logs_bind; [ | intros ? _ ]
  | |- logs _ (ret _) => apply logs_ret
  | |- logs _ (lift _) => apply logs_lift
  | |- logs _ (tell _) => apply logs_tell; auto
  | |- logs _ (if ?c then _ else _) => destruct c
  | |- logs _ (let '(_, _) := ?x in _) => destruct x
  | |- logs _ (match ?x with _ => _ end) => destruct x
  end.

Section LocalLogs.
Variable P : event -> Prop.
Hypothesis P_search : forall pat, P (Search pat).
Hypothesis P_read : forall file, P (Read file).

Lemma search_logs L stdata pat : logs P (search L stdata pat).
Proof. unfold search. repeat logs_step. Qed.

Lemma search_each_logs L stdata pat nets :
  logs P (search_each L stdata pat nets).
Proof.
  induction nets as [ | anet rest IH]; cbn [search_each];
    [ apply logs_ret | ].
  apply logs_bind; [ apply search_logs | intros ? _ ].
  apply logs_bind; [ exact IH | intros ? _ ]. apply logs_ret.
Qed.

Lemma lclfiles_single_day_logs L comp stdata sta yr jd :
  logs P (lclfiles_single_day L comp stdata sta yr jd).
Proof.
  unfold lclfiles_single_day.
  repeat first [ apply search_logs | apply search_each_logs | logs_step ].
Qed.

Lemma lclfiles_day_logs L comp stdata sta yr jd :
  logs P (lclfiles_day L comp stdata sta yr jd).
Proof.
  unfold lclfiles_day.
  repeat first [ apply search_logs | apply search_each_logs | logs_step ].
Qed.

Lemma read_logs L sacfile : logs P (read L sacfile).
Proof. unfold read. repeat logs_step. Qed.

Lemma read_single_day_logs L lclfiles start end_ ndval :
  logs P (read_single_day L lclfiles start end_ ndval).
Proof.
  induction lclfiles as [ | sacfile rest IH]; cbn [read_single_day];
    [ apply logs_ret | ].
  repeat first [ exact IH | apply read_logs | logs_step ].
Qed.

Hypothesis P_merge : forall f1 f2, P (Merge f1 f2).

Lemma merge_second_day_logs L sacf1 lclfiles2 start end_ ndval :
  forall st1, logs P (merge_second_day L sacf1 st1 lclfiles2 start end_ ndval).
Proof.
  induction lclfiles2 as [ | sacf2 rest IH]; intros st1;
    cbn [merge_second_day]; [ apply logs_ret | ].
  repeat first [ apply IH | apply read_logs | logs_step ].
Qed.

Lemma merge_first_day_logs L lclfiles1 lclfiles2 start end_ ndval :
  logs P (merge_first_day L lclfiles1 lclfiles2 start end_ ndval).
Proof.
  induction lclfiles1 as [ | sacf1 rest IH]; cbn [merge_first_day];
    [ apply logs_ret | ].
  repeat first [ exact IH | apply read_logs | apply merge_second_day_logs
               | logs_step ].
Qed.

Lemma parse_localdata_for_comp_logs L comp stdata sta start end_ ndval :
  logs P (parse_localdata_for_comp L comp stdata sta start end_ ndval).
Proof.
  unfold parse_localdata_for_comp.
  destruct (search_path start end_).
  - repeat first [ apply lclfiles_single_day_logs | apply read_single_day_logs
                 | logs_step ].
  - repeat first [ apply lclfiles_day_logs | apply merge_first_day_logs
                 | logs_step ].
Qed.
End LocalLogs.

Lemma local_data_local L sta start end_ stdata ndval :
  logs is_local (local_data L sta start end_ stdata ndval).
Proof.
  unfold local_data.
  repeat first [ apply parse_localdata_for_comp_logs; intros; exact I | logs_step ].
Qed.

Lemma len_cons_pos {A} (x : A) (l : list A) : (0 <? len (x :: l)) = true.
Proof. unfold len. apply Z.ltb_lt. simpl List.length. lia. Qed.

Lemma local_data_failed L sta start end_ stdata ndval st :
  result_of (local_data L sta start end_ stdata ndval) = Ret (true, st) ->
  stdata = [] \/
  exists comp s, In comp ["Z"; "N"; "E"] /\
    result_of (parse_localdata_for_comp L comp stdata sta start end_ ndval)
    = Ret (true, s).
Proof.
  unfold local_data.
  destruct stdata as [ | f rest]; [ auto | ].
  rewrite len_cons_pos. intros H. right.
  apply result_of_bind_inv in H. destruct H as ([errZ stZ] & HZ & H).
  apply result_of_bind_inv in H. destruct H as ([errN stN] & HN & H).
  apply result_of_bind_inv in H. destruct H as ([errE stE] & HE & H).
  destruct errZ; [ exists "Z", stZ; split; [ left | ]; auto | ].
  destruct errN; [ exists "N", stN; split; [ right; left | ]; auto | ].
  destruct errE; [ exists "E", stE; split; [ right; right; left | ]; auto | ].
  cbn [orb negb] in H.
  apply result_of_bind_inv in H. destruct H as (a & _ & H).
  discriminate H.
Qed.

Lemma local_data_found L sta start end_ stdata ndval stZ stN stE :
  stdata <> [] ->
  result_of (parse_localdata_for_comp L "Z" stdata sta start end_ ndval)
  = Ret (false, Some stZ) ->
  result_of (parse_localdata_for_comp L "N" stdata sta start end_ ndval)
  = Ret (false, Some stN) ->
  result_of (parse_localdata_for_comp L "E" stdata sta start end_ ndval)
  = Ret (false, Some stE) ->
  result_of (local_data L sta start end_ stdata ndval)
  = Ret (false, Bound (Some ((stZ ++ stN) ++ stE))).
Proof.
  intros Hne HZ HN HE. unfold local_data.
  destruct stdata as [ | f rest]; [ congruence | ].
  rewrite len_cons_pos.
  rewrite (result_of_bind _ _ _ HZ).
  rewrite (result_of_bind _ _ _ HN).
  rewrite (result_of_bind _ _ _ HE).
  reflexivity.
Qed.

Lemma query_needs_local_failure L client sta start end_ stdata ndval loc :
  In (Query loc) (log_of (get_data_NEZ L client sta start end_ stdata ndval)) ->
  stdata = [] \/
  exists comp s, In comp ["Z"; "N"; "E"] /\
    result_of (parse_localdata_for_comp L comp stdata sta start end_ ndval)
    = Ret (true, s).
Proof.
  intros H. unfold get_data_NEZ in H.
  apply log_of_bind in H. destruct H as [H | ([erd st] & _ & [])].
  unfold acquire in H.
  apply log_of_bind in H. destruct H as [H | ([erd st] & Hlocal & H)].
  - apply local_data_local in H. destruct H.
  - destruct erd; [ | destruct H ].
    apply (local_data_failed _ _ _ _ _ _ _ Hlocal).
Qed.

Lemma index0_select_in c st tr : index0 (select c st) = Ret tr -> In tr st.
Proof.
  unfold select. intros H.
  destruct (filter (has_component c) st) as [ | x rest] eqn:E; [ discriminate | ].
  inversion H; subst x.
  assert (Hin : In tr (filter (has_component c) st))
    by (rewrite E; left; reflexivity).
  apply filter_In in Hin. exact (proj1 Hin).
Qed.

(** C5: with local paths given and the three components resolved from local
    files, the client is not queried and the result is computed from the
    three local streams: when their sum passes the two checks and the
    processing calls return, the traces returned are the first N, E and Z
    traces of the local streams, processed.  The client is queried only when
    no local path was given or the local search failed for a component. *)
Theorem local_data_preferred :
  forall L client sta start end_ stdata ndval,
    (forall stZ stN stE,
        stdata <> [] ->
        result_of (parse_localdata_for_comp L "Z" stdata sta start end_ ndval)
        = Ret (false, Some stZ) ->
        result_of (parse_localdata_for_comp L "N" stdata sta start end_ ndval)
        = Ret (false, Some stN) ->
        result_of (parse_localdata_for_comp L "E" stdata sta start end_ ndval)
        = Ret (false, Some stE) ->
        (forall loc,
            ~ In (Query loc)
                 (log_of (get_data_NEZ L client sta start end_ stdata ndval))) /\
        result_of (get_data_NEZ L client sta start end_ stdata ndval)
        = check_and_process L (Bound (Some ((stZ ++ stN) ++ stE))) /\
        (forall st',
            component_missing ((stZ ++ stN) ++ stE) = Ret false ->
            lengths_equal ((stZ ++ stN) ++ stE) = Ret true ->
            process L ((stZ ++ stN) ++ stE) = Ret st' ->
            exists n e z trN trE trZ,
              In n ((stZ ++ stN) ++ stE) /\ In e ((stZ ++ stN) ++ stE) /\
              In z ((stZ ++ stN) ++ stE) /\
              index0 (select "N" ((stZ ++ stN) ++ stE)) = Ret n /\
              index0 (select "E" ((stZ ++ stN) ++ stE)) = Ret e /\
              index0 (select "Z" ((stZ ++ stN) ++ stE)) = Ret z /\
              processed_in_order L n trN /\ processed_in_order L e trE /\
              processed_in_order L z trZ /\
              result_of (get_data_NEZ L client sta start end_ stdata ndval)
              = Ret (false, Some trN, Some trE, Some trZ))) /\
    (forall loc,
        In (Query loc) (log_of (get_data_NEZ L client sta start end_ stdata ndval)) ->
        stdata = [] \/
        exists comp s, In comp ["Z"; "N"; "E"] /\
          result_of (parse_localdata_for_comp L comp stdata sta start end_ ndval)
          = Ret (true, s)).
Proof.
  intros L client sta start end_ stdata ndval.
  split; [ | intros loc; apply query_needs_local_failure ].
  intros stZ stN stE Hne HZ HN HE.
  assert (Hres : result_of (get_data_NEZ L client sta start end_ stdata ndval)
                 = check_and_process L (Bound (Some ((stZ ++ stN) ++ stE)))).
  { pose proof (local_data_found L sta start end_ stdata ndval _ _ _ Hne HZ HN HE)
      as Hlocal.
    unfold get_data_NEZ, acquire.
    destruct (local_data L sta start end_ stdata ndval) as [l r].
    unfold result_of in Hlocal. cbn [snd] in Hlocal. subst r.
    unfold result_of, bind, ret, lift. cbn [snd].
    destruct (check_and_process L (Bound (Some ((stZ ++ stN) ++ stE))));
      reflexivity. }
  split; [ | split; [ exact Hres | ] ].
  - intros loc H. apply query_needs_local_failure in H.
    destruct H as [H | (comp & s & Hin & H)]; [ contradiction | ].
    destruct Hin as [<- | [<- | [<- | []]]]; congruence.
  - intros st' Hmiss Hlen Hp.
    destruct (component_missing_false _ Hmiss) as (z & e & n & Hz & He & Hn).
    destruct (checked_and_processed L _ st' n e z Hmiss Hlen Hp Hn He Hz)
      as (trN & trE & trZ & PN & PE & PZ & Hcheck).
    exists n, e, z, trN, trE, trZ.
    repeat split; try assumption;
      try (eapply index0_select_in; eassumption).
    rewrite Hres. exact Hcheck.
Qed.

(** Three files of day 5 of 2015 that hold five seconds at 10 Hz, and a
    window of two seconds inside them. *)
Lemma local_data_preferred_witness :
  (forall loc,
      ~ In (Query loc)
           (log_of (get_data_NEZ (disk_library disk_10Hz) empty_client sta_ABC
                                 (utc 2015 1 5 3601) (utc 2015 1 5 3603)
                                 (map fst disk_10Hz) NaN))) /\
  exists n e z trN trE trZ,
    In n (([at_10Hz "BHZ" (utc 2015 1 5 3601) (repeat (Num 1) 21)]
             ++ [at_10Hz "BHN" (utc 2015 1 5 3601) (repeat (Num 2) 21)])
            ++ [at_10Hz "BHE" (utc 2015 1 5 3601) (repeat (Num 3) 21)]) /\
    In e (([at_10Hz "BHZ" (utc 2015 1 5 3601) (repeat (Num 1) 21)]
             ++ [at_10Hz "BHN" (utc 2015 1 5 3601) (repeat (Num 2) 21)])
            ++ [at_10Hz "BHE" (utc 2015 1 5 3601) (repeat (Num 3) 21)]) /\
    In z (([at_10Hz "BHZ" (utc 2015 1 5 3601) (repeat (Num 1) 21)]
             ++ [at_10Hz "BHN" (utc 2015 1 5 3601) (repeat (Num 2) 21)])
            ++ [at_10Hz "BHE" (utc 2015 1 5 3601) (repeat (Num 3) 21)]) /\
    index0 (select "N"
              (([at_10Hz "BHZ" (utc 2015 1 5 3601) (repeat (Num 1) 21)]
                  ++ [at_10Hz "BHN" (utc 2015 1 5 3601) (repeat (Num 2) 21)])
                 ++ [at_10Hz "BHE" (utc 2015 1 5 3601) (repeat (Num 3) 21)]))
    = Ret n /\
    index0 (select "E"
              (([at_10Hz "BHZ" (utc 2015 1 5 3601) (repeat (Num 1) 21)]
                  ++ [at_10Hz "BHN" (utc 2015 1 5 3601) (repeat (Num 2) 21)])
                 ++ [at_10Hz "BHE" (utc 2015 1 5 3601) (repeat (Num 3) 21)]))
    = Ret e /\
    index0 (select "Z"
              (([at_10Hz "BHZ" (utc 2015 1 5 3601) (repeat (Num 1) 21)]
                  ++ [at_10Hz "BHN" (utc 2015 1 5 3601) (repeat (Num 2) 21)])
                 ++ [at_10Hz "BHE" (utc 2015 1 5 3601) (repeat (Num 3) 21)]))
    = Ret z /\
    processed_in_order (disk_library disk_10Hz) n trN /\
    processed_in_order (disk_library disk_10Hz) e trE /\
    processed_in_order (disk_library disk_10Hz) z trZ /\
    result_of (get_data_NEZ (disk_library disk_10Hz) empty_client sta_ABC
                            (utc 2015 1 5 3601) (utc 2015 1 5 3603)
                            (map fst disk_10Hz) NaN)
    = Ret (false, Some trN, Some trE, Some trZ).
Proof.
  destruct (proj1 (local_data_preferred (disk_library disk_10Hz) empty_client
                     sta_ABC (utc 2015 1 5 3601) (utc 2015 1 5 3603)
                     (map fst disk_10Hz) NaN)
              [at_10Hz "BHZ" (utc 2015 1 5 3601) (repeat (Num 1) 21)]
              [at_10Hz "BHN" (utc 2015 1 5 3601) (repeat (Num 2) 21)]
              [at_10Hz "BHE" (utc 2015 1 5 3601) (repeat (Num 3) 21)])
    as (Hquery & _ & Hreturned);
    [ discriminate | vm_compute; reflexivity .. | ].
  split; [ exact Hquery | ].
  apply (Hreturned
           [mkTrace "ABC" "BHZ" "" (utc 2015 1 5 3601) 200000000
                    (Some (Num (-12345))) (repeat (Num 1) 10);
            mkTrace "ABC" "BHN" "" (utc 2015 1 5 3601) 200000000
                    (Some (Num (-12345))) (repeat (Num 2) 10);
            mkTrace "ABC" "BHE" "" (utc 2015 1 5 3601) 200000000
                    (Some (Num (-12345))) (repeat (Num 3) 10)]);
    vm_compute; reflexivity.
Defined.

(** ** The two-day merge *)

Lemma endtime_replace_nodata stnd ndval tr :
  endtime (replace_nodata stnd ndval tr) = endtime tr.
Proof.
  unfold endtime, replace_nodata, set_data, len. simpl.
  rewrite length_map. reflexivity.
Qed.


Lemma result_of_lift {A} (r : res A) : result_of (lift r) = r.
Proof. reflexivity. Qed.



Lemma len_one {A} (l : list A) : len l = 1 -> exists x, l = [x].
Proof.
  unfold len. destruct l as [ | x [ | y rest]]; simpl; intros H;
    [ discriminate | eauto | lia ].
Qed.

Lemma window_of_some L st start end_ out :
  window_of L st start end_ = Ret (Some out) ->
  exists tr, index0 st = Ret tr /\ starttime tr <= start /\
             endtime tr >= end_ /\ stream_trim L start end_ st = Ret out.
Proof.
  unfold window_of. intros H.
  apply rbind_ret_inv in H. destruct H as (tr & Htr & H).
  destruct (starttime tr <=? start) eqn:Hs; [ | discriminate ].
  destruct (endtime tr >=? end_) eqn:He; [ | discriminate ].
  simpl in H.
  apply rbind_ret_inv in H. destruct H as (st' & Htrim & H).
  apply rbind_ret_inv in H. destruct H as (tr' & _ & H).
  destruct (has_nan tr'); inversion H; subst.
  exists tr. apply Z.leb_le in Hs. apply Z.geb_le in He.
  repeat split; try assumption; lia.
Qed.






(** ** The model on small inputs *)

Example strftime_first_days :
  (strftime_Y (utc 2015 1 5 0), strftime_j (utc 2015 1 5 0)) = ("2015", "005") /\
  (strftime_Y (utc 2016 12 31 86399), strftime_j (utc 2016 12 31 86399))
  = ("2016", "366") /\
  (strftime_Y 0, strftime_j 0) = ("1970", "001").
Proof. repeat split. Qed.

Example format_patterns :
  format1 "2015" "005" "CN" "ABC" "BH" "Z" = "*/2015.005.CN.ABC.*.BHZ.SAC" /\
  format2 "2015" "005" "CN" "ABC" "Z" = "*/2015.005.CN.ABC.*.*Z.SAC".
Proof. split; reflexivity. Qed.

Example glob_day_file :
  glob "*/2015.005.CN.ABC.*.BHZ.SAC" "data/2015.005.CN.ABC..BHZ.SAC" = true /\
  glob "*/2015.005.CN.ABC.*.BHZ.SAC" "data/2015.005.CN.ABC.00.BHN.SAC" = false /\
  glob "*/2015.005.CN.ABC.*.*Z.SAC" "data/2015.005.CN.ABC.00.HHZ.SAC" = true.
Proof. repeat split. Qed.

Example split_commas :
  split "," "IU,CN.ABC" = ["IU"; "CN.ABC"] /\ split "," "" = [""] /\
  split ":" "user:password" = ["user"; "password"].
Proof. repeat split. Qed.

Example single_day_from_disk :
  parse_localdata_for_comp (disk_library (two_days "BHZ")) "Z"
    (map fst (two_days "BHZ")) sta_ABC (utc 2015 1 5 3600) (utc 2015 1 5 7200) NaN
  = ([Search "*/2015.005.CN.ABC.*.BHZ.SAC"; Read "data/2015.005.CN.ABC..BHZ.SAC"],
     Ret (false, Some [hourly "BHZ" (utc 2015 1 5 3600) [Num 1; Num 1]])).
Proof. vm_compute. reflexivity. Qed.

Example client_without_data :
  get_data_NEZ (disk_library []) empty_client sta_ABC 0 (2 * hour) [] NaN
  = ([Query ""], Ret error_result).
Proof. reflexivity. Qed.

(** * Further properties *)

(** ** Splitting and joining *)

Lemma split_not_nil sep s : split sep s <> [].
Proof.
  destruct s as [ | c s]; simpl; [ discriminate | ].
  destruct (Ascii.eqb c sep); [ discriminate | ].
  destruct (split sep s); discriminate.
Qed.

Lemma join_cons_char sep c h t :
  join sep (String c h :: t) = String c (join sep (h :: t)).
Proof. destruct t; reflexivity. Qed.

Lemma join_split sep s : join (String sep EmptyString) (split sep s) = s.
Proof.
  induction s as [ | c s IH]; [ reflexivity | ]. cbn [split].
  destruct (split sep s) as [ | h t] eqn:Es; [ now apply split_not_nil in Es | ].
  destruct (Ascii.eqb c sep) eqn:E.
  - apply Ascii.eqb_eq in E. subst c.
    change (join (String sep EmptyString) (EmptyString :: h :: t))
      with (String sep (join (String sep EmptyString) (h :: t))).
    rewrite IH. reflexivity.
  - rewrite join_cons_char, IH. reflexivity.
Qed.

Lemma length_split sep s :
  List.length (split sep s) = S (count_char sep s).
Proof.
  induction s as [ | c s IH]; simpl; [ reflexivity | ].
  destruct (Ascii.eqb c sep); simpl; [ now rewrite IH | ].
  destruct (split sep s) as [ | h t] eqn:Es; [ now apply split_not_nil in Es | ].
  exact IH.
Qed.

Lemma split_parts sep s :
  Forall (fun part => count_char sep part = O) (split sep s).
Proof.
  induction s as [ | c s IH]; simpl; [ repeat constructor | ].
  destruct (Ascii.eqb c sep) eqn:E; [ constructor; [ reflexivity | exact IH ] | ].
  destruct (split sep s) as [ | h t] eqn:Es; [ now apply split_not_nil in Es | ].
  inversion IH; subst. constructor; [ | assumption ].
  simpl. rewrite E. assumption.
Qed.

Lemma len_split_two sep s :
  len (split sep s) = 2 <-> count_char sep s = 1%nat.
Proof. unfold len. rewrite length_split. lia. Qed.

(** ** What the option functions accept *)

Lemma check_inputs_ret exist args need prefix indb :
  check_inputs exist args need prefix = Ret indb <->
  args = [indb] /\ exist indb = true.
Proof.
  unfold check_inputs, parser_error. split.
  - destruct args as [ | a [ | b rest]]; try discriminate.
    destruct (exist a) eqn:E; simpl; [ | discriminate ].
    intros H. inversion H; subst. auto.
  - intros [-> E]. rewrite E. reflexivity.
Qed.

Lemma construct_time_accepts to_time which s :
  (exists t, construct_time to_time which s = Ret t) <-> time_accepted to_time s.
Proof.
  unfold construct_time, time_accepted, slen, parser_error. split.
  - intros [t H]. destruct s as [ | c s]; [ auto | ]. right.
    cbn [String.length Z.of_nat Z.ltb Z.compare] in H.
    destruct (to_time (String c s)) as [u | ]; [ eauto | discriminate ].
  - intros [-> | [t H]]; [ eexists; reflexivity | ].
    destruct s as [ | c s]; [ eexists; reflexivity | ].
    cbn [String.length Z.of_nat Z.ltb Z.compare]. rewrite H. eauto.
Qed.

Lemma parse_user_auth_accepts UserAuth :
  (exists ua, parse_user_auth UserAuth = Ret ua) <->
  UserAuth = "" \/ count_char ":" UserAuth = 1%nat.
Proof.
  unfold parse_user_auth, parser_error, slen.
  destruct UserAuth as [ | c s]; [ simpl; split; eauto | ].
  cbn [String.length Z.of_nat Z.eqb negb].
  destruct (len (split ":" (String c s)) =? 2) eqn:E; cbn [negb].
  - apply Z.eqb_eq, len_split_two in E. split; eauto.
  - apply Z.eqb_neq in E. rewrite len_split_two in E. split.
    + intros [ua H]. discriminate.
    + intros [H | H]; [ discriminate | contradiction ].
Qed.

(** X1: [get_options] returns options exactly when there is one positional
    argument that names an existing file, each time string is empty or can be
    made a time, and the user authentification is empty or holds exactly one
    colon; the file name it returns is that argument. *)
Theorem get_options_accepts_iff :
  forall (Other : Type) exist to_time (opts : OTF.Values Other) args indb,
    (exists o, get_options exist to_time opts args = Ret (o, indb)) <->
    (args = [indb] /\ exist indb = true /\
     time_accepted to_time (OTF.startT opts) /\
     time_accepted to_time (OTF.endT opts) /\
     (OTF.UserAuth opts = "" \/ count_char ":" (OTF.UserAuth opts) = 1%nat)).
Proof.
  intros Other exist to_time opts args indb. unfold get_options. split.
  - intros [o H].
    rbind_inv H db Hdb. rbind_inv H t1 H1. rbind_inv H t2 H2.
    rbind_inv H ua Hua.
    assert (db = indb)
      by (destruct (OTF.skip opts && OTF.ovr opts)%bool; inversion H; auto).
    subst db. apply check_inputs_ret in Hdb. destruct Hdb as [-> Hex].
    repeat split; try assumption.
    + apply (construct_time_accepts to_time "start"). eauto.
    + apply (construct_time_accepts to_time "end"). eauto.
    + apply parse_user_auth_accepts. eauto.
  - intros (-> & Hex & Hs & He & Hua).
    apply (construct_time_accepts to_time "start") in Hs. destruct Hs as [t1 H1].
    apply (construct_time_accepts to_time "end") in He. destruct He as [t2 H2].
    apply parse_user_auth_accepts in Hua. destruct Hua as [ua Hua].
    rewrite (proj2 (check_inputs_ret exist [indb] _ _ indb) (conj eq_refl Hex)).
    cbn [rbind]. rewrite H1. cbn [rbind]. rewrite H2. cbn [rbind].
    rewrite Hua. cbn [rbind].
    destruct (OTF.skip opts && OTF.ovr opts)%bool; eexists; reflexivity.
Qed.

(** X2: [get_options_prep_offline] accepts under the same conditions as
    [get_options], and [get_options_OL_proc], which has no user
    authentification, under those on the argument and the two times. *)
Theorem offline_options_accept_iff :
  forall (Other : Type) exist to_time,
    (forall (opts : Prep.Values Other) args indb,
        (exists o, get_options_prep_offline exist to_time opts args = Ret (o, indb)) <->
        (args = [indb] /\ exist indb = true /\
         time_accepted to_time (Prep.startT opts) /\
         time_accepted to_time (Prep.endT opts) /\
         (Prep.UserAuth opts = "" \/ count_char ":" (Prep.UserAuth opts) = 1%nat))) /\
    (forall (opts : OLProc.Values Other) args indr,
        (exists o, get_options_OL_proc exist to_time opts args = Ret (o, indr)) <->
        (args = [indr] /\ exist indr = true /\
         time_accepted to_time (OLProc.startT opts) /\
         time_accepted to_time (OLProc.endT opts))).
Proof.
  intros Other exist to_time. split.
  - intros opts args indb. unfold get_options_prep_offline. split.
    + intros [o H].
      rbind_inv H db Hdb. rbind_inv H t1 H1. rbind_inv H t2 H2.
      rbind_inv H ua Hua.
      assert (db = indb) by (inversion H; auto).
      subst db. apply check_inputs_ret in Hdb. destruct Hdb as [-> Hex].
      repeat split; try assumption.
      * apply (construct_time_accepts to_time "start"). eauto.
      * apply (construct_time_accepts to_time "end"). eauto.
      * apply parse_user_auth_accepts. eauto.
    + intros (-> & Hex & Hs & He & Hua).
      apply (construct_time_accepts to_time "start") in Hs. destruct Hs as [t1 H1].
      apply (construct_time_accepts to_time "end") in He. destruct He as [t2 H2].
      apply parse_user_auth_accepts in Hua. destruct Hua as [ua Hua].
      rewrite (proj2 (check_inputs_ret exist [indb] _ _ indb) (conj eq_refl Hex)).
      cbn [rbind]. rewrite H1. cbn [rbind]. rewrite H2. cbn [rbind].
      rewrite Hua. cbn [rbind]. eexists; reflexivity.
  - intros opts args indr. unfold get_options_OL_proc. split.
    + intros [o H].
      rbind_inv H db Hdb. rbind_inv H t1 H1. rbind_inv H t2 H2.
      assert (db = indr) by (inversion H; auto).
      subst db. apply check_inputs_ret in Hdb. destruct Hdb as [-> Hex].
      repeat split; try assumption.
      * apply (construct_time_accepts to_time "start"). eauto.
      * apply (construct_time_accepts to_time "end"). eauto.
    + intros (-> & Hex & Hs & He).
      apply (construct_time_accepts to_time "start") in Hs. destruct Hs as [t1 H1].
      apply (construct_time_accepts to_time "end") in He. destruct He as [t2 H2].
      rewrite (proj2 (check_inputs_ret exist [indr] _ _ indr) (conj eq_refl Hex)).
      cbn [rbind]. rewrite H1. cbn [rbind]. rewrite H2. cbn [rbind].
      eexists; reflexivity.
Qed.

Lemma parse_user_auth_parts UserAuth ua :
  parse_user_auth UserAuth = Ret ua ->
  (UserAuth = "" /\ ua = []) \/
  exists user password,
    ua = [user; password] /\ UserAuth = user +++ ":" +++ password /\
    count_char ":" user = O /\ count_char ":" password = O.
Proof.
  unfold parse_user_auth, parser_error, slen.
  destruct UserAuth as [ | c s]; [ simpl; intros H; inversion H; auto | ].
  cbn [String.length Z.of_nat Z.eqb negb].
  pose proof (join_split ":" (String c s)) as Hjoin.
  pose proof (split_parts ":" (String c s)) as Hparts.
  remember (split ":" (String c s)) as parts eqn:Ep. clear Ep.
  destruct (len parts =? 2) eqn:E; cbn [negb]; [ | discriminate ].
  intros H. inversion H; subst ua. right.
  apply Z.eqb_eq in E. unfold len in E.
  destruct parts as [ | u [ | pw [ | x rest]]]; simpl in E; try lia.
  exists u, pw. inversion Hparts as [ | ? ? Hu Hrest]; subst.
  inversion Hrest; subst.
  split; [ reflexivity | ]. split; [ symmetry; exact Hjoin | ]. auto.
Qed.

(** X3: in the options [get_options] and [get_options_prep_offline] return,
    the user authentification is the empty list when none was given, and
    otherwise the two parts, free of colons, of which the given string is
    made with one colon between them. *)
Theorem user_auth_two_parts :
  forall (Other : Type) exist to_time,
    (forall (opts : OTF.Values Other) args o p,
        get_options exist to_time opts args = Ret (o, p) ->
        (OTF.UserAuth opts = "" /\ OTF.UserAuth' o = []) \/
        exists user password,
          OTF.UserAuth' o = [user; password] /\
          OTF.UserAuth opts = user +++ ":" +++ password /\
          count_char ":" user = O /\ count_char ":" password = O) /\
    (forall (opts : Prep.Values Other) args o p,
        get_options_prep_offline exist to_time opts args = Ret (o, p) ->
        (Prep.UserAuth opts = "" /\ Prep.UserAuth' o = []) \/
        exists user password,
          Prep.UserAuth' o = [user; password] /\
          Prep.UserAuth opts = user +++ ":" +++ password /\
          count_char ":" user = O /\ count_char ":" password = O).
Proof.
  intros Other exist to_time. split; intros opts args o p H.
  - unfold get_options in H.
    rbind_inv H db Hdb. rbind_inv H t1 H1. rbind_inv H t2 H2.
    rbind_inv H ua Hua. apply parse_user_auth_parts in Hua.
    destruct (OTF.skip opts && OTF.ovr opts)%bool; inversion H; subst; exact Hua.
  - unfold get_options_prep_offline in H.
    rbind_inv H db Hdb. rbind_inv H t1 H1. rbind_inv H t2 H2.
    rbind_inv H ua Hua. apply parse_user_auth_parts in Hua.
    inversion H; subst; exact Hua.
Qed.

(** A user name and a password on the command line of [get_options]. *)
Lemma user_auth_two_parts_witness :
  exists user password,
    [user; password] = ["anna"; "s3cret"] /\
    "anna:s3cret" = user +++ ":" +++ password /\
    count_char ":" user = O /\ count_char ":" password = O.
Proof.
  destruct (proj1 (user_auth_two_parts unit (fun _ => true) iso_date)
              (OTF.mkValues "" false false "anna:s3cret" None false "" "" tt)
              ["stations.pkl"] _ _ eq_refl)
    as [[H _] | (user & password & H1 & H2 & H3 & H4)].
  - discriminate H.
  - exists user, password.
    split; [ symmetry; exact H1 | auto ].
Defined.

Lemma create_station_keys_of stkeys : keys_of stkeys (create_station_keys stkeys).
Proof.
  unfold keys_of, create_station_keys, slen.
  destruct stkeys as [ | c s]; [ left; auto | right ].
  cbn [String.length Z.of_nat Z.ltb Z.compare].
  split; [ discriminate | ].
  exists (split "," (String c s)). split; [ reflexivity | ].
  split; [ apply split_not_nil | ].
  split; [ apply join_split | apply split_parts ].
Qed.

Lemma parse_local_data_of localdata : paths_of localdata (parse_local_data localdata).
Proof.
  unfold paths_of, parse_local_data. destruct localdata as [s | ]; [ | reflexivity ].
  split; [ apply split_not_nil | ].
  split; [ apply join_split | apply split_parts ].
Qed.

(** X4: the comma separated options come back as lists that join to what was
    given: the station keys of the three functions (a list exactly when the
    string given is not empty; the empty string stays the empty string), and
    the local data paths of [get_options] and
    [get_options_prep_offline], which are the empty list only when the option
    was not given (an empty value gives one empty path). *)
Theorem comma_lists_round_trip :
  forall (Other : Type) exist to_time,
    (forall (opts : OTF.Values Other) args o p,
        get_options exist to_time opts args = Ret (o, p) ->
        keys_of (OTF.stkeys opts) (OTF.stkeys' o) /\
        paths_of (OTF.localdata opts) (OTF.localdata' o)) /\
    (forall (opts : Prep.Values Other) args o p,
        get_options_prep_offline exist to_time opts args = Ret (o, p) ->
        keys_of (Prep.stkeys opts) (Prep.stkeys' o) /\
        paths_of (Prep.localdata opts) (Prep.localdata' o)) /\
    (forall (opts : OLProc.Values Other) args o p,
        get_options_OL_proc exist to_time opts args = Ret (o, p) ->
        keys_of (OLProc.stkeys opts) (OLProc.stkeys' o)).
Proof.
  intros Other exist to_time.
  split; [ | split ]; intros opts args o p H.
  - unfold get_options in H.
    rbind_inv H db Hdb. rbind_inv H t1 H1. rbind_inv H t2 H2.
    rbind_inv H ua Hua.
    destruct (OTF.skip opts && OTF.ovr opts)%bool; inversion H; subst; simpl;
      (split; [ apply create_station_keys_of | apply parse_local_data_of ]).
  - unfold get_options_prep_offline in H.
    rbind_inv H db Hdb. rbind_inv H t1 H1. rbind_inv H t2 H2.
    rbind_inv H ua Hua.
    inversion H; subst; simpl;
      (split; [ apply create_station_keys_of | apply parse_local_data_of ]).
  - unfold get_options_OL_proc in H.
    rbind_inv H db Hdb. rbind_inv H t1 H1. rbind_inv H t2 H2.
    inversion H; subst; simpl. apply create_station_keys_of.
Qed.

(** Two station keys and an empty value of the local data option. *)
Lemma comma_lists_round_trip_witness :
  keys_of "IU,CN.ABC" (KeyList ["IU"; "CN.ABC"]) /\ paths_of (Some "") [""].
Proof.
  apply (proj1 (comma_lists_round_trip unit (fun _ => true) iso_date)
           (OTF.mkValues "IU,CN.ABC" false false "" (Some "") false "" "" tt)
           ["stations.pkl"] _ "stations.pkl" eq_refl).
Defined.

(** ** The candidate files *)

Lemma result_of_search L stdata pat :
  result_of (search L stdata pat) = Ret (fnmatch_filter L stdata pat).
Proof. reflexivity. Qed.

Lemma result_of_search_each L stdata pat nets :
  result_of (search_each L stdata pat nets)
  = Ret (matches_each L stdata pat nets).
Proof.
  unfold matches_each.
  induction nets as [ | anet rest IH]; cbn [search_each flat_map];
    [ reflexivity | ].
  rewrite (result_of_bind _ _ _ (result_of_search L stdata (pat anet))).
  rewrite (result_of_bind _ _ _ IH). reflexivity.
Qed.

Lemma result_of_ret_bind {A B} (a : A) (f : A -> M B) :
  result_of (bind (ret a) f) = result_of (f a).
Proof. apply result_of_bind. reflexivity. Qed.

Lemma len_zero {A} (l : list A) : (len l =? 0) = true -> l = [].
Proof. destruct l; [ reflexivity | discriminate ]. Qed.

Lemma matches_each_nil L stdata (pat : string) nets :
  fnmatch_filter L stdata pat = [] ->
  matches_each L stdata (fun _ => pat) nets = [].
Proof.
  intros H. unfold matches_each.
  induction nets as [ | anet rest IH]; cbn [flat_map]; [ reflexivity | ].
  rewrite IH, H. reflexivity.
Qed.

(** X5: the candidate files are those of the first search stage that matches
    any.  For a day of the two-day case the stages are Format 1 and Format 2
    with the station's network code, then Format 1 and Format 2 over the
    alternate codes; in the single-day case only the first three count, since
    the fourth stage never adds a file. *)
Theorem candidates_first_nonempty :
  forall L comp stdata sta yr jd,
    let own1 := fnmatch_filter L stdata
                  (format1 yr jd (upper (network sta)) (upper (station sta))
                           (slice_0_2 (upper (channel sta))) (upper comp)) in
    let own2 := fnmatch_filter L stdata
                  (format2 yr jd (upper (network sta)) (upper (station sta))
                           (upper comp)) in
    let alt1 := matches_each L stdata
                  (fun anet => format1 yr jd (upper anet) (upper (station sta))
                                       (slice_0_2 (upper (channel sta))) (upper comp))
                  (altnet sta) in
    let alt2 := matches_each L stdata
                  (fun anet => format2 yr jd (upper anet) (upper (station sta))
                                       (upper comp))
                  (altnet sta) in
    result_of (lclfiles_day L comp stdata sta yr jd)
    = Ret (first_nonempty [own1; own2; alt1; alt2]) /\
    result_of (lclfiles_single_day L comp stdata sta yr jd)
    = Ret (first_nonempty [own1; own2; alt1]).
Proof.
  intros L comp stdata sta yr jd own1 own2 alt1 alt2. split.
  - unfold lclfiles_day.
    rewrite (result_of_bind _ _ _ (result_of_search _ _ _)). fold own1.
    cbn [first_nonempty].
    destruct (len own1 =? 0) eqn:E1;
      [ | repeat (rewrite result_of_ret_bind; cbv beta; rewrite ?E1);
          reflexivity ].
    rewrite (result_of_bind _ _ _ (result_of_search _ _ _)). fold own2.
    destruct (len own2 =? 0) eqn:E2;
      [ | repeat (rewrite result_of_ret_bind; cbv beta; rewrite ?E2);
          reflexivity ].
    rewrite (result_of_bind _ _ _ (result_of_search_each _ _ _ _)). fold alt1.
    destruct (len alt1 =? 0) eqn:E3;
      [ | repeat (rewrite result_of_ret_bind; cbv beta; rewrite ?E3);
          reflexivity ].
    rewrite (result_of_bind _ _ _ (result_of_search_each _ _ _ _)).
    fold alt2. destruct (len alt2 =? 0) eqn:E4; [ | reflexivity ].
    apply len_zero in E4. rewrite E4. reflexivity.
  - unfold lclfiles_single_day.
    rewrite (result_of_bind _ _ _ (result_of_search _ _ _)). fold own1.
    cbn [first_nonempty].
    destruct (len own1 =? 0) eqn:E1;
      [ | repeat (rewrite result_of_ret_bind; cbv beta; rewrite ?E1);
          reflexivity ].
    rewrite (result_of_bind _ _ _ (result_of_search _ _ _)). fold own2.
    destruct (len own2 =? 0) eqn:E2;
      [ | repeat (rewrite result_of_ret_bind; cbv beta; rewrite ?E2);
          reflexivity ].
    rewrite (result_of_bind _ _ _ (result_of_search_each _ _ _ _)). fold alt1.
    destruct (len alt1 =? 0) eqn:E3;
      [ | repeat (rewrite result_of_ret_bind; cbv beta; rewrite ?E3);
          reflexivity ].
    rewrite (result_of_bind _ _ _ (result_of_search_each _ _ _ _)).
    apply len_zero in E2.
    rewrite (matches_each_nil L stdata _ (altnet sta) E2).
    reflexivity.
Qed.

Lemma matches_each_none L stdata pat nets :
  (forall anet, In anet nets -> fnmatch_filter L stdata (pat anet) = []) ->
  matches_each L stdata pat nets = [].
Proof.
  unfold matches_each.
  induction nets as [ | anet rest IH]; intros H; cbn [flat_map];
    [ reflexivity | ].
  rewrite IH by (intros a Ha; apply H; right; exact Ha).
  rewrite (H anet) by (left; reflexivity). reflexivity.
Qed.

Lemma single_day_none L comp stdata sta yr jd :
  (forall pat, In pat (single_day_patterns comp sta yr jd) ->
               fnmatch_filter L stdata pat = []) ->
  result_of (lclfiles_single_day L comp stdata sta yr jd) = Ret [].
Proof.
  intros H.
  rewrite (proj2 (candidates_first_nonempty L comp stdata sta yr jd)).
  unfold single_day_patterns in H.
  rewrite (H _ (or_introl eq_refl)).
  rewrite (H _ (or_intror (or_introl eq_refl))).
  rewrite matches_each_none; [ reflexivity | ].
  intros anet Ha. apply H. right. right.
  apply (in_map (fun anet => format1 yr jd (upper anet) (upper (station sta))
                              (slice_0_2 (upper (channel sta))) (upper comp))).
  exact Ha.
Qed.

Lemma day_none L comp stdata sta yr jd :
  (forall pat, In pat (day_patterns comp sta yr jd) ->
               fnmatch_filter L stdata pat = []) ->
  result_of (lclfiles_day L comp stdata sta yr jd) = Ret [].
Proof.
  intros H.
  rewrite (proj1 (candidates_first_nonempty L comp stdata sta yr jd)).
  unfold day_patterns, single_day_patterns in H.
  rewrite (H (format1 yr jd (upper (network sta)) (upper (station sta))
                      (slice_0_2 (upper (channel sta))) (upper comp)))
    by (apply in_or_app; left; left; reflexivity).
  rewrite (H (format2 yr jd (upper (network sta)) (upper (station sta))
                      (upper comp)))
    by (apply in_or_app; left; right; left; reflexivity).
  rewrite !matches_each_none; [ reflexivity | | ].
  - intros anet Ha. apply H. apply in_or_app. right.
    apply (in_map (fun anet => format2 yr jd (upper anet) (upper (station sta))
                                (upper comp))).
    exact Ha.
  - intros anet Ha. apply H. apply in_or_app. left. right. right.
    apply (in_map (fun anet => format1 yr jd (upper anet) (upper (station sta))
                                (slice_0_2 (upper (channel sta))) (upper comp))).
    exact Ha.
Qed.

(** X6: when none of the patterns of the search stages of the window matches
    a name of the file list, the function returns (True, None) and has only
    searched: no file is read. *)
Theorem no_match_nothing_read :
  forall L comp stdata sta start end_ ndval,
    (forall pat, In pat (window_patterns comp sta start end_) ->
                 fnmatch_filter L stdata pat = []) ->
    result_of (parse_localdata_for_comp L comp stdata sta start end_ ndval)
    = Ret (true, None) /\
    logs is_search (parse_localdata_for_comp L comp stdata sta start end_ ndval).
Proof.
  intros L comp stdata sta start end_ ndval Hnone.
  unfold window_patterns in Hnone.
  unfold parse_localdata_for_comp. destruct (search_path start end_).
  - pose proof (single_day_none L comp stdata sta _ _ Hnone) as Hsingle.
    split.
    + rewrite (result_of_bind _ _ _ Hsingle). reflexivity.
    + apply logs_bind;
        [ apply lclfiles_single_day_logs; intros; exact I | ].
      intros a Ha. rewrite Hsingle in Ha. inversion Ha; subst.
      apply logs_ret.
  - assert (H1 : result_of (lclfiles_day L comp stdata sta
                              (strftime_Y start) (strftime_j start)) = Ret [])
      by (apply day_none; intros pat Hp; apply Hnone, in_or_app; left; exact Hp).
    assert (H2 : result_of (lclfiles_day L comp stdata sta
                              (strftime_Y end_) (strftime_j end_)) = Ret [])
      by (apply day_none; intros pat Hp; apply Hnone, in_or_app; right; exact Hp).
    split.
    + rewrite (result_of_bind _ _ _ H1).
      rewrite (result_of_bind _ _ _ H2). reflexivity.
    + apply logs_bind; [ apply lclfiles_day_logs; intros; exact I | ].
      intros a Ha. rewrite H1 in Ha. inversion Ha; subst.
      apply logs_bind; [ apply lclfiles_day_logs; intros; exact I | ].
      intros b Hb. rewrite H2 in Hb. inversion Hb; subst.
      apply logs_ret.
Qed.

(** A file list with a text file and the day file of another station, for a
    window over two days. *)
Lemma no_match_nothing_read_witness :
  result_of (parse_localdata_for_comp (disk_library []) "Z"
               ["data/readme.txt"; "data/2015.005.CN.XYZ..BHZ.SAC"] sta_ABC
               (utc 2015 1 5 82800) (utc 2015 1 6 3600) NaN)
  = Ret (true, None) /\
  logs is_search (parse_localdata_for_comp (disk_library []) "Z"
                    ["data/readme.txt"; "data/2015.005.CN.XYZ..BHZ.SAC"] sta_ABC
                    (utc 2015 1 5 82800) (utc 2015 1 6 3600) NaN).
Proof.
  apply no_match_nothing_read. intros pat H. vm_compute in H.
  repeat (destruct H as [<- | H]; [ reflexivity | ]). destruct H.
Defined.

(** X7: in the two-day case, when no file is found for one of the two days,
    the function returns (True, None) and reads no file, whatever was found
    for the other day. *)
Theorem two_days_need_both :
  forall L comp stdata sta start end_ ndval,
    search_path start end_ = TwoDays ->
    result_of (lclfiles_day L comp stdata sta (strftime_Y start) (strftime_j start))
    = Ret [] \/
    result_of (lclfiles_day L comp stdata sta (strftime_Y end_) (strftime_j end_))
    = Ret [] ->
    result_of (parse_localdata_for_comp L comp stdata sta start end_ ndval)
    = Ret (true, None) /\
    logs is_search (parse_localdata_for_comp L comp stdata sta start end_ ndval).
Proof.
  intros L comp stdata sta start end_ ndval Hpath Hday.
  unfold parse_localdata_for_comp. rewrite Hpath.
  pose proof (proj1 (candidates_first_nonempty L comp stdata sta
                       (strftime_Y start) (strftime_j start))) as H1.
  pose proof (proj1 (candidates_first_nonempty L comp stdata sta
                       (strftime_Y end_) (strftime_j end_))) as H2.
  cbv zeta in H1, H2.
  set (a := first_nonempty _) in H1. set (b := first_nonempty _) in H2.
  assert (Hab : a = [] \/ b = [])
    by (destruct Hday; [ left | right ]; congruence).
  clearbody a b. split.
  - rewrite (result_of_bind _ _ _ H1). rewrite (result_of_bind _ _ _ H2).
    destruct Hab; subst.
    + destruct (len b =? 0), (0 <? len b); reflexivity.
    + destruct (len a =? 0), (0 <? len a); reflexivity.
  - apply logs_bind; [ apply lclfiles_day_logs; intros; exact I | ].
    intros a' Ha. rewrite H1 in Ha. inversion Ha; subst a'.
    apply logs_bind; [ apply lclfiles_day_logs; intros; exact I | ].
    intros b' Hb. rewrite H2 in Hb. inversion Hb; subst b'.
    destruct Hab; subst.
    + destruct (len b =? 0), (0 <? len b); apply logs_ret.
    + destruct (len a =? 0), (0 <? len a); apply logs_ret.
Qed.

(** Only the file of the first day is on the list. *)
Lemma two_days_need_both_witness :
  result_of (parse_localdata_for_comp (disk_library (two_days "BHZ")) "Z"
               ["data/2015.005.CN.ABC..BHZ.SAC"] sta_ABC
               (utc 2015 1 5 82800) (utc 2015 1 6 3600) NaN)
  = Ret (true, None) /\
  logs is_search (parse_localdata_for_comp (disk_library (two_days "BHZ")) "Z"
                    ["data/2015.005.CN.ABC..BHZ.SAC"] sta_ABC
                    (utc 2015 1 5 82800) (utc 2015 1 6 3600) NaN).
Proof.
  apply two_days_need_both; [ reflexivity | right; reflexivity ].
Defined.

(** ** What the local search returns *)

Lemma window_of_one L tr start end_ out :
  window_of L [tr] start end_ = Ret (Some out) ->
  covers_clean L start end_ out.
Proof.
  unfold window_of, covers_clean. cbn [index0 rbind].
  destruct (starttime tr <=? start) eqn:Hs; [ | discriminate ].
  destruct (endtime tr >=? end_) eqn:He; [ | discriminate ].
  cbn [andb]. intros H.
  rbind_inv H st' Htrim. rbind_inv H tr' Htr'.
  destruct (has_nan tr') eqn:Hnan; inversion H; subst.
  exists tr, tr'. apply Z.leb_le in Hs. apply Z.geb_le in He.
  repeat split; try assumption; lia.
Qed.

Lemma convert_nodata_one stnd ndval tr :
  exists tr', fst (convert_nodata stnd ndval [tr]) = [tr'] /\
              starttime tr' = starttime tr /\ endtime tr' = endtime tr.
Proof.
  unfold convert_nodata.
  destruct (negb (feqb stnd (Num 0)) && negb (feqb stnd (Num (-12345))))%bool;
    simpl; eexists; split; try reflexivity; split; try reflexivity.
  apply endtime_replace_nodata.
Qed.

Lemma read_single_day_some L lclfiles start end_ ndval out :
  result_of (read_single_day L lclfiles start end_ ndval) = Ret (false, Some out) ->
  exists f tr0 v,
    In f lclfiles /\ obspy_read L f = Ret [tr0] /\ sac_user9 tr0 = Some v /\
    starttime tr0 <= start /\ endtime tr0 >= end_ /\
    covers_clean L start end_ out.
Proof.
  induction lclfiles as [ | sacfile rest IH]; cbn [read_single_day]; intros H;
    [ discriminate | ].
  apply result_of_bind_inv in H. destruct H as (st & Hst & H).
  apply result_of_read in Hst.
  destruct (len st =? 1) eqn:Hlen; cbn [negb] in H.
  - apply Z.eqb_eq, len_one in Hlen. destruct Hlen as (tr0 & ->).
    apply result_of_bind_inv in H. destruct H as (tr & Htr & H).
    rewrite result_of_lift in Htr. inversion Htr; subst tr.
    apply result_of_bind_inv in H. destruct H as (stnd & Hnd & H).
    rewrite result_of_lift in Hnd. unfold user9 in Hnd.
    destruct (sac_user9 tr0) as [v | ] eqn:Hv; [ | discriminate ].
    inversion Hnd; subst stnd.
    destruct (convert_nodata_one v ndval tr0) as (tr' & Hc & Hs & He).
    destruct (convert_nodata v ndval [tr0]) as [st' eddt]. simpl in Hc. subst st'.
    apply result_of_bind_inv in H. destruct H as (found & Hf & H).
    rewrite result_of_lift in Hf.
    destruct found as [st | ].
    + inversion H; subst st.
      pose proof (window_of_one L tr' start end_ out Hf) as Hcc.
      apply window_of_some in Hf. destruct Hf as (x & Hx & Hxs & Hxe & _).
      inversion Hx; subst x.
      exists sacfile, tr0, v. rewrite <- Hs, <- He.
      repeat split; try assumption. left. reflexivity.
    + destruct (IH H) as (f & t & w & Hin & Hrest).
      exists f, t, w. split; [ right; exact Hin | exact Hrest ].
  - destruct (IH H) as (f & t & w & Hin & Hrest).
    exists f, t, w. split; [ right; exact Hin | exact Hrest ].
Qed.

Lemma read_single_day_shape L lclfiles start end_ ndval r :
  result_of (read_single_day L lclfiles start end_ ndval) = Ret r ->
  flag_or_stream r.
Proof.
  induction lclfiles as [ | sacfile rest IH]; cbn [read_single_day]; intros H.
  - inversion H. exact I.
  - apply result_of_bind_inv in H. destruct H as (st & _ & H).
    destruct (negb (len st =? 1)); [ exact (IH H) | ].
    apply result_of_bind_inv in H. destruct H as (tr & _ & H).
    apply result_of_bind_inv in H. destruct H as (stnd & _ & H).
    destruct (convert_nodata stnd ndval st) as [st' eddt].
    apply result_of_bind_inv in H. destruct H as ([out | ] & _ & H).
    + inversion H. exact I.
    + exact (IH H).
Qed.

Lemma merge_first_day_shape L lclfiles1 lclfiles2 start end_ ndval r :
  result_of (merge_first_day L lclfiles1 lclfiles2 start end_ ndval) = Ret r ->
  flag_or_stream r.
Proof.
  induction lclfiles1 as [ | sacf1 rest IH]; cbn [merge_first_day]; intros H.
  - inversion H. exact I.
  - apply result_of_bind_inv in H. destruct H as (st1 & _ & H).
    apply result_of_bind_inv in H. destruct H as ([out | ] & _ & H).
    + inversion H. exact I.
    + exact (IH H).
Qed.

(** X8: [parse_localdata_for_comp] returns its error flag with no stream, or
    no error flag with a stream, and nothing else: the streams that
    [get_data_NEZ] adds up after three calls without error flag are there. *)
Theorem flag_without_stream_or_stream :
  forall L comp stdata sta start end_ ndval r,
    result_of (parse_localdata_for_comp L comp stdata sta start end_ ndval) = Ret r ->
    flag_or_stream r.
Proof.
  intros L comp stdata sta start end_ ndval r H.
  unfold parse_localdata_for_comp in H. destruct (search_path start end_).
  - apply result_of_bind_inv in H. destruct H as (lclfiles & _ & H).
    destruct (len lclfiles =? 0).
    + inversion H. exact I.
    + eapply read_single_day_shape. exact H.
  - apply result_of_bind_inv in H. destruct H as (lclfiles1 & _ & H).
    apply result_of_bind_inv in H. destruct H as (lclfiles2 & _ & H).
    destruct ((len lclfiles1 =? 0) && (len lclfiles2 =? 0))%bool.
    + inversion H. exact I.
    + destruct ((0 <? len lclfiles1) && (0 <? len lclfiles2))%bool.
      * eapply merge_first_day_shape. exact H.
      * inversion H. exact I.
Qed.

(** The day file of day 5 for a window inside the day. *)
Lemma flag_without_stream_or_stream_witness :
  flag_or_stream
    (false, Some [hourly "BHZ" (utc 2015 1 5 3600) [Num 1; Num 1]]).
Proof.
  apply (flag_without_stream_or_stream (disk_library (two_days "BHZ")) "Z"
           (map fst (two_days "BHZ")) sta_ABC
           (utc 2015 1 5 3600) (utc 2015 1 5 7200) NaN).
  vm_compute. reflexivity.
Defined.

Lemma try_merge_covers_clean L joined start end_ out :
  try_merge L joined start end_ = Ret (Some out) -> covers_clean L start end_ out.
Proof.
  unfold try_merge. intros H.
  rbind_inv H merged Hm.
  destruct (len merged =? 1) eqn:Hlen; [ | discriminate ].
  cbn [negb] in H. apply Z.eqb_eq, len_one in Hlen. destruct Hlen as (x & ->).
  apply window_of_one in H. exact H.
Qed.

Lemma merge_second_day_covers_clean L sacf1 lclfiles2 start end_ ndval out :
  forall st1,
    result_of (merge_second_day L sacf1 st1 lclfiles2 start end_ ndval)
    = Ret (Some out) ->
    covers_clean L start end_ out.
Proof.
  induction lclfiles2 as [ | sacf2 rest IH]; intros st1 H;
    cbn [merge_second_day] in H; [ discriminate | ].
  apply result_of_bind_inv in H. destruct H as (st2 & _ & H).
  apply result_of_bind_inv in H. destruct H as (tr1 & _ & H).
  apply result_of_bind_inv in H. destruct H as (tr2 & _ & H).
  destruct (overlaps tr1 tr2).
  - apply result_of_bind_inv in H. destruct H as (st1nd & _ & H).
    apply result_of_bind_inv in H. destruct H as (st2nd & _ & H).
    destruct (convert_nodata st1nd ndval st1) as [st1' eddt1].
    destruct (convert_nodata st2nd ndval st2) as [st2' eddt2].
    apply result_of_bind_inv in H. destruct H as (u & _ & H).
    destruct (try_merge L (st1' ++ st2') start end_) as [[st | ] | x] eqn:Hm;
      [ | eapply IH; eassumption .. ].
    inversion H; subst. eapply try_merge_covers_clean. exact Hm.
  - apply result_of_bind_inv in H. destruct H as (s1 & _ & H).
    apply result_of_bind_inv in H. destruct H as (s2 & _ & H).
    eapply IH; eassumption.
Qed.

Lemma merge_first_day_covers_clean L lclfiles1 lclfiles2 start end_ ndval out :
  result_of (merge_first_day L lclfiles1 lclfiles2 start end_ ndval)
  = Ret (false, Some out) ->
  covers_clean L start end_ out.
Proof.
  induction lclfiles1 as [ | sacf1 rest IH]; intros H;
    cbn [merge_first_day] in H; [ discriminate | ].
  apply result_of_bind_inv in H. destruct H as (st1 & _ & H).
  apply result_of_bind_inv in H. destruct H as ([st | ] & Hfound & H).
  - inversion H; subst. eapply merge_second_day_covers_clean; eassumption.
  - apply IH, H.
Qed.

(** X9: on either path, a stream returned without error flag is the trim to
    the requested window of a one-trace stream that covers the window, and its
    first trace holds no NaN. *)
Theorem returned_stream_covers_window :
  forall L comp stdata sta start end_ ndval out,
    result_of (parse_localdata_for_comp L comp stdata sta start end_ ndval)
    = Ret (false, Some out) ->
    covers_clean L start end_ out.
Proof.
  intros L comp stdata sta start end_ ndval out H.
  unfold parse_localdata_for_comp in H. destruct (search_path start end_).
  - apply result_of_bind_inv in H. destruct H as (lclfiles & _ & H).
    destruct (len lclfiles =? 0); [ discriminate | ].
    apply read_single_day_some in H.
    destruct H as (f & tr0 & v & _ & _ & _ & _ & _ & H). exact H.
  - apply result_of_bind_inv in H. destruct H as (lclfiles1 & _ & H).
    apply result_of_bind_inv in H. destruct H as (lclfiles2 & _ & H).
    destruct ((len lclfiles1 =? 0) && (len lclfiles2 =? 0))%bool;
      [ discriminate | ].
    destruct ((0 <? len lclfiles1) && (0 <? len lclfiles2))%bool;
      [ | discriminate ].
    eapply merge_first_day_covers_clean. exact H.
Qed.

(** The day file of day 5 for a window inside the day. *)
Lemma returned_stream_covers_window_witness :
  covers_clean (disk_library (two_days "BHZ"))
               (utc 2015 1 5 3600) (utc 2015 1 5 7200)
               [hourly "BHZ" (utc 2015 1 5 3600) [Num 1; Num 1]].
Proof.
  apply (returned_stream_covers_window (disk_library (two_days "BHZ")) "Z"
           (map fst (two_days "BHZ")) sta_ABC
           (utc 2015 1 5 3600) (utc 2015 1 5 7200) NaN).
  vm_compute. reflexivity.
Defined.

(** X10: in the single-day case a stream is returned only from a candidate
    file that reads as exactly one trace, with a [user9] header value, that
    starts at or before the requested start and ends at or after the requested
    end. *)
Theorem single_day_success_from_one_trace_file :
  forall L comp stdata sta start end_ ndval out,
    search_path start end_ = SingleDay ->
    result_of (parse_localdata_for_comp L comp stdata sta start end_ ndval)
    = Ret (false, Some out) ->
    exists lclfiles f tr0 v,
      result_of (lclfiles_single_day L comp stdata sta
                   (strftime_Y start) (strftime_j start)) = Ret lclfiles /\
      In f lclfiles /\ obspy_read L f = Ret [tr0] /\ sac_user9 tr0 = Some v /\
      starttime tr0 <= start /\ endtime tr0 >= end_.
Proof.
  intros L comp stdata sta start end_ ndval out Hpath H.
  unfold parse_localdata_for_comp in H. rewrite Hpath in H.
  apply result_of_bind_inv in H. destruct H as (lclfiles & Hl & H).
  destruct (len lclfiles =? 0); [ discriminate | ].
  apply read_single_day_some in H.
  destruct H as (f & tr0 & v & Hin & Hread & Hv & Hs & He & _).
  exists lclfiles, f, tr0, v. auto 10.
Qed.

(** The day file of day 5 for a window inside the day. *)
Lemma single_day_success_from_one_trace_file_witness :
  exists lclfiles f tr0 v,
    result_of (lclfiles_single_day (disk_library (two_days "BHZ")) "Z"
                 (map fst (two_days "BHZ")) sta_ABC
                 (strftime_Y (utc 2015 1 5 3600)) (strftime_j (utc 2015 1 5 3600)))
    = Ret lclfiles /\
    In f lclfiles /\
    obspy_read (disk_library (two_days "BHZ")) f = Ret [tr0] /\
    sac_user9 tr0 = Some v /\
    starttime tr0 <= utc 2015 1 5 3600 /\ endtime tr0 >= utc 2015 1 5 7200.
Proof.
  apply (single_day_success_from_one_trace_file
           (disk_library (two_days "BHZ")) "Z" (map fst (two_days "BHZ")) sta_ABC
           (utc 2015 1 5 3600) (utc 2015 1 5 7200) NaN
           [hourly "BHZ" (utc 2015 1 5 3600) [Num 1; Num 1]]).
  - reflexivity.
  - vm_compute. reflexivity.
Defined.

(** ** Exceptions of the local search *)

Lemma bind_exc {A B} (m : M A) (f : A -> M B) e :
  result_of m = Exc e -> bind m f = (log_of m, Exc e).
Proof.
  destruct m as [l r]. unfold result_of, log_of. simpl. intros ->. reflexivity.
Qed.

Lemma bind_raised {A B} (l : list event) (e : exn) (f : A -> M B) :
  bind (l, Exc e) f = (l, Exc e).
Proof. reflexivity. Qed.

Lemma len_cons_pos_eqb {A} (x : A) (l : list A) : (len (x :: l) =? 0) = false.
Proof. unfold len. apply Z.eqb_neq. simpl List.length. lia. Qed.

(** X11: in the single-day case, when the first candidate file for the Z
    component cannot be read, the exception of the read leaves
    [get_data_NEZ]: no other file is tried and the client is not queried. *)
Theorem unreadable_file_aborts :
  forall L client sta start end_ stdata ndval f rest e,
    stdata <> [] ->
    search_path start end_ = SingleDay ->
    result_of (lclfiles_single_day L "Z" stdata sta
                 (strftime_Y start) (strftime_j start)) = Ret (f :: rest) ->
    obspy_read L f = Exc e ->
    result_of (get_data_NEZ L client sta start end_ stdata ndval) = Exc e /\
    logs is_local (get_data_NEZ L client sta start end_ stdata ndval).
Proof.
  intros L client sta start end_ stdata ndval f rest e Hne Hpath Hfiles Hread.
  assert (HZ : result_of (parse_localdata_for_comp L "Z" stdata sta start end_ ndval)
               = Exc e).
  { unfold parse_localdata_for_comp. rewrite Hpath.
    rewrite (result_of_bind _ _ _ Hfiles). rewrite len_cons_pos_eqb.
    cbn [read_single_day].
    assert (Hr : result_of (read L f) = Exc e)
      by (unfold read, result_of, bind, tell, lift; cbn [snd fst];
          rewrite Hread; reflexivity).
    rewrite (bind_exc _ _ _ Hr). reflexivity. }
  assert (Hget : get_data_NEZ L client sta start end_ stdata ndval
                 = (log_of (parse_localdata_for_comp L "Z" stdata sta start end_ ndval),
                    Exc e)).
  { unfold get_data_NEZ, acquire, local_data.
    destruct stdata as [ | x xs]; [ congruence | ].
    rewrite len_cons_pos.
    rewrite (bind_exc _ _ _ HZ). rewrite !bind_raised. reflexivity. }
  rewrite Hget. split; [ reflexivity | ].
  intros ev Hev.
  change (In ev (log_of (parse_localdata_for_comp L "Z" stdata sta start end_ ndval)))
    in Hev.
  apply (parse_localdata_for_comp_logs is_local) in Hev;
    [ exact Hev | intros; exact I .. ].
Qed.

(** A day file that is on the list and not on the disk. *)
Lemma unreadable_file_aborts_witness :
  result_of (get_data_NEZ (disk_library []) (client_with "" st_ZNE) sta_ABC
               (utc 2015 1 5 3600) (utc 2015 1 5 7200)
               ["data/2015.005.CN.ABC..BHZ.SAC"] NaN)
  = Exc (LibraryError "No such file") /\
  logs is_local (get_data_NEZ (disk_library []) (client_with "" st_ZNE) sta_ABC
                   (utc 2015 1 5 3600) (utc 2015 1 5 7200)
                   ["data/2015.005.CN.ABC..BHZ.SAC"] NaN).
Proof.
  apply (unreadable_file_aborts (disk_library []) (client_with "" st_ZNE) sta_ABC
           (utc 2015 1 5 3600) (utc 2015 1 5 7200)
           ["data/2015.005.CN.ABC..BHZ.SAC"] NaN
           "data/2015.005.CN.ABC..BHZ.SAC" []);
    [ discriminate | reflexivity .. ].
Defined.

(** ** The locations asked of the client *)

Lemma request_client_first client sta start end_ pre loc post st :
  (forall l, In l pre -> three_traces client sta start end_ l = None) ->
  three_traces client sta start end_ loc = Some st ->
  forall erd st0,
    request_client client sta start end_ (pre ++ loc :: post) erd st0
    = (map Query (pre ++ [loc]), Ret (false, Bound (Some st))).
Proof.
  intros Hpre Hloc.
  induction pre as [ | l rest IH]; intros erd st0;
    cbn [app request_client map].
  - unfold three_traces, channels_of in Hloc.
    destruct (client (network sta) (station sta) loc _ start end_) as [s | x];
      [ | discriminate ].
    destruct (len s =? 3); [ | discriminate ].
    inversion Hloc; subst. reflexivity.
  - assert (Hl : three_traces client sta start end_ l = None)
      by (apply Hpre; left; reflexivity).
    assert (Hrest : forall l', In l' rest ->
                      three_traces client sta start end_ l' = None)
      by (intros l' Hin; apply Hpre; right; exact Hin).
    unfold three_traces, channels_of in Hl.
    destruct (client (network sta) (station sta) l _ start end_) as [s | x].
    + destruct (len s =? 3); [ discriminate | ].
      unfold bind, tell. rewrite (IH Hrest). reflexivity.
    + unfold bind, tell. rewrite (IH Hrest). reflexivity.
Qed.

Lemma request_client_none client sta start end_ locs :
  (forall l, In l locs -> three_traces client sta start end_ l = None) ->
  forall erd st0,
    request_client client sta start end_ locs erd st0
    = (map Query locs,
       Ret (match locs with
            | [] => (erd, st0)
            | _ :: _ => (true, Bound None)
            end)).
Proof.
  intros Hnone.
  induction locs as [ | l rest IH]; intros erd st0;
    cbn [request_client map]; [ reflexivity | ].
  assert (Hl : three_traces client sta start end_ l = None)
    by (apply Hnone; left; reflexivity).
  assert (Hrest : forall l', In l' rest ->
                    three_traces client sta start end_ l' = None)
    by (intros l' Hin; apply Hnone; right; exact Hin).
  unfold three_traces, channels_of in Hl.
  destruct (client (network sta) (station sta) l _ start end_) as [s | x].
  - destruct (len s =? 3); [ discriminate | ].
    unfold bind, tell. rewrite (IH Hrest). destruct rest; reflexivity.
  - unfold bind, tell. rewrite (IH Hrest). destruct rest; reflexivity.
Qed.

Lemma get_data_NEZ_after_local L client sta start end_ stdata ndval llog v :
  local_data L sta start end_ stdata ndval = (llog, Ret (true, v)) ->
  forall qlog erd st,
    request_client client sta start end_ (location sta) false v
    = (qlog, Ret (erd, st)) ->
    get_data_NEZ L client sta start end_ stdata ndval
    = (llog ++ qlog, check_and_process L st).
Proof.
  intros Hlocal qlog erd st Hreq.
  unfold get_data_NEZ, acquire. rewrite Hlocal.
  unfold bind at 2. rewrite Hreq.
  unfold bind, lift. rewrite app_nil_r. reflexivity.
Qed.

(** X12: when the local files gave no stream, the locations of the station
    are asked of the client in their order up to the first one for which it
    answers three traces; the result is computed from that answer and the
    locations after it are not asked. *)
Theorem first_location_with_three_traces :
  forall L client sta start end_ stdata ndval llog v pre loc post st,
    local_data L sta start end_ stdata ndval = (llog, Ret (true, v)) ->
    location sta = pre ++ loc :: post ->
    (forall l, In l pre -> three_traces client sta start end_ l = None) ->
    three_traces client sta start end_ loc = Some st ->
    get_data_NEZ L client sta start end_ stdata ndval
    = (llog ++ map Query (pre ++ [loc]), check_and_process L (Bound (Some st))).
Proof.
  intros L client sta start end_ stdata ndval llog v pre loc post st
         Hlocal Hloc Hpre Hgood.
  apply (get_data_NEZ_after_local L client sta start end_ stdata ndval llog v
           Hlocal _ false).
  rewrite Hloc. apply request_client_first; assumption.
Qed.

(** A client with data under the second location code of the station. *)
Lemma first_location_with_three_traces_witness :
  get_data_NEZ (disk_library []) (client_with "" st_ZNE) sta_ABC_two_locations
               0 (2 * hour) [] NaN
  = ([] ++ map Query (["00"] ++ [""]),
     check_and_process (disk_library []) (Bound (Some st_ZNE))).
Proof.
  apply (first_location_with_three_traces (disk_library [])
           (client_with "" st_ZNE) sta_ABC_two_locations 0 (2 * hour) [] NaN
           [] Unbound ["00"] "" [] st_ZNE).
  - reflexivity.
  - reflexivity.
  - intros l [<- | []]. reflexivity.
  - reflexivity.
Defined.

(** X13: when the local files gave no stream and the client answers no
    location of a station that has some with three traces (it raises, or
    answers another number of traces), every location is asked once, in
    order, and the function returns (True, None, None, None). *)
Theorem no_location_answers_error_result :
  forall L client sta start end_ stdata ndval llog v,
    local_data L sta start end_ stdata ndval = (llog, Ret (true, v)) ->
    location sta <> [] ->
    (forall l, In l (location sta) ->
               three_traces client sta start end_ l = None) ->
    get_data_NEZ L client sta start end_ stdata ndval
    = (llog ++ map Query (location sta), Ret error_result).
Proof.
  intros L client sta start end_ stdata ndval llog v Hlocal Hne Hnone.
  rewrite (get_data_NEZ_after_local L client sta start end_ stdata ndval llog v
             Hlocal (map Query (location sta)) true (Bound None)).
  - reflexivity.
  - rewrite (request_client_none client sta start end_ (location sta) Hnone).
    destruct (location sta); [ congruence | reflexivity ].
Qed.

(** A client without data and a station with two location codes. *)
Lemma no_location_answers_error_result_witness :
  get_data_NEZ (disk_library []) empty_client sta_ABC_two_locations
               0 (2 * hour) [] NaN
  = ([] ++ map Query ["00"; ""], Ret error_result).
Proof.
  apply (no_location_answers_error_result (disk_library []) empty_client
           sta_ABC_two_locations 0 (2 * hour) [] NaN [] Unbound).
  - reflexivity.
  - discriminate.
  - intros l _. reflexivity.
Defined.

(** ** The checks and the result *)

Lemma component_missing_present st trZ trE trN :
  index0 (select "Z" st) = Ret trZ ->
  index0 (select "E" st) = Ret trE ->
  index0 (select "N" st) = Ret trN ->
  component_missing st = Ret (negb (trace_bool trZ) || negb (trace_bool trN))%bool
  /\ report_missing st = Ret tt.
Proof.
  intros HZ HE HN. unfold component_missing, report_missing.
  change (str0 "E") with "E". rewrite HZ, HE, HN. cbn [rbind].
  assert (HEs : stream_bool (select "E" st) = true)
    by (destruct (select "E" st); [ discriminate | reflexivity ]).
  rewrite HEs. cbn [negb].
  destruct (trace_bool trZ); cbn [negb orb]; auto.
Qed.

(** X14: for a stream that has a Z, an E and an N trace, the function returns
    (True, None, None, None), without any processing, exactly when the first
    Z trace or the first N trace has no sample or the first Z and E traces
    differ in length.  Otherwise the stream is processed: when the five calls
    return, the result is (False, trN, trE, trZ) with the first N, E and Z
    traces, processed; when a call raises, its exception leaves the
    function. *)
Theorem checks_with_all_components :
  forall L st trZ trE trN,
    index0 (select "Z" st) = Ret trZ ->
    index0 (select "E" st) = Ret trE ->
    index0 (select "N" st) = Ret trN ->
    ((negb (trace_bool trZ) || negb (trace_bool trN)
      || negb (len (data trZ) =? len (data trE)))%bool = true ->
     check_and_process L (Bound (Some st)) = Ret error_result) /\
    ((negb (trace_bool trZ) || negb (trace_bool trN)
      || negb (len (data trZ) =? len (data trE)))%bool = false ->
     (forall st',
         process L st = Ret st' ->
         exists trN' trE' trZ',
           processed_in_order L trN trN' /\ processed_in_order L trE trE' /\
           processed_in_order L trZ trZ' /\
           check_and_process L (Bound (Some st))
           = Ret (false, Some trN', Some trE', Some trZ')) /\
     (forall x,
         process L st = Exc x ->
         check_and_process L (Bound (Some st)) = Exc x)).
Proof.
  intros L st trZ trE trN HZ HE HN.
  destruct (component_missing_present st trZ trE trN HZ HE HN) as [Hmiss Hrep].
  pose proof (lengths_equal_Z_E st trZ trE HZ HE) as Hlen.
  split; intros Hbad.
  - unfold check_and_process. rewrite Hmiss. cbn [rbind].
    destruct (negb (trace_bool trZ) || negb (trace_bool trN))%bool.
    + rewrite Hrep. reflexivity.
    + rewrite Hlen. cbn [rbind]. cbn [orb] in Hbad. rewrite Hbad. reflexivity.
  - apply Bool.orb_false_iff in Hbad. destruct Hbad as [Hm Hl].
    rewrite Hm in Hmiss. apply Bool.negb_false_iff in Hl. rewrite Hl in Hlen.
    split.
    + intros st' Hp.
      apply (checked_and_processed L st st' trN trE trZ); assumption.
    + intros x Hp. apply checked_and_raised; assumption.
Qed.

(** Three traces at 10 Hz of which the E trace is shorter than the Z trace,
    and three traces of one length. *)
Lemma checks_with_all_components_witness :
  check_and_process (disk_library [])
    (Bound (Some [at_10Hz "BHZ" 0 (repeat (Num 1) 20);
                  at_10Hz "BHE" 0 (repeat (Num 1) 10);
                  at_10Hz "BHN" 0 (repeat (Num 1) 20)]))
  = Ret error_result /\
  exists trN' trE' trZ',
    processed_in_order (disk_library []) (at_10Hz "BHN" 0 (repeat (Num 2) 20)) trN' /\
    processed_in_order (disk_library []) (at_10Hz "BHE" 0 (repeat (Num 3) 20)) trE' /\
    processed_in_order (disk_library []) (at_10Hz "BHZ" 0 (repeat (Num 1) 20)) trZ' /\
    check_and_process (disk_library []) (Bound (Some st_ZNE_10Hz))
    = Ret (false, Some trN', Some trE', Some trZ').
Proof.
  split.
  - apply (proj1 (checks_with_all_components (disk_library [])
                    [at_10Hz "BHZ" 0 (repeat (Num 1) 20);
                     at_10Hz "BHE" 0 (repeat (Num 1) 10);
                     at_10Hz "BHN" 0 (repeat (Num 1) 20)]
                    (at_10Hz "BHZ" 0 (repeat (Num 1) 20))
                    (at_10Hz "BHE" 0 (repeat (Num 1) 10))
                    (at_10Hz "BHN" 0 (repeat (Num 1) 20))
                    eq_refl eq_refl eq_refl)).
    reflexivity.
  - apply (proj1 (proj2 (checks_with_all_components (disk_library [])
                     st_ZNE_10Hz
                     (at_10Hz "BHZ" 0 (repeat (Num 1) 20))
                     (at_10Hz "BHE" 0 (repeat (Num 3) 20))
                     (at_10Hz "BHN" 0 (repeat (Num 2) 20))
                     eq_refl eq_refl eq_refl) eq_refl)
             [mkTrace "ABC" "BHZ" "" 0 200000000 (Some (Num (-12345)))
                      (repeat (Num 1) 10);
              mkTrace "ABC" "BHN" "" 0 200000000 (Some (Num (-12345)))
                      (repeat (Num 2) 10);
              mkTrace "ABC" "BHE" "" 0 200000000 (Some (Num (-12345)))
                      (repeat (Num 3) 10)]).
    vm_compute. reflexivity.
Defined.

Lemma index0_select_component c st tr :
  index0 (select c st) = Ret tr -> has_component c tr = true.
Proof.
  unfold select. induction st as [ | x rest IH]; cbn [filter];
    [ discriminate | ].
  destruct (has_component c x) eqn:E; [ | exact IH ].
  intros H. inversion H; subst. exact E.
Qed.

Lemma check_and_process_shape L st r :
  check_and_process L st = Ret r ->
  r = error_result \/
  exists trN trE trZ,
    r = (false, Some trN, Some trE, Some trZ) /\
    has_component "N" trN = true /\ has_component "E" trE = true /\
    has_component "Z" trZ = true.
Proof.
  unfold check_and_process.
  destruct st as [ | [s | ]]; [ discriminate | | intros H; inversion H; auto ].
  intros H. rbind_inv H missing Hm.
  destruct missing.
  - rbind_inv H u Hu. inversion H. auto.
  - rbind_inv H equal He. destruct equal; cbn [negb] in H;
      [ | inversion H; auto ].
    rbind_inv H st' Hp.
    unfold extract in H.
    rbind_inv H trE HE. rbind_inv H trN HN. rbind_inv H trZ HZ.
    inversion H; subst. right. exists trN, trE, trZ.
    repeat split; eapply index0_select_component; eassumption.
Qed.

(** X15: whatever [get_data_NEZ] returns is (True, None, None, None) or
    (False, trN, trE, trZ) with three traces whose channel codes end in N, E
    and Z, in this order. *)
Theorem result_is_error_or_three_components :
  forall L client sta start end_ stdata ndval r,
    result_of (get_data_NEZ L client sta start end_ stdata ndval) = Ret r ->
    r = error_result \/
    exists trN trE trZ,
      r = (false, Some trN, Some trE, Some trZ) /\
      has_component "N" trN = true /\ has_component "E" trE = true /\
      has_component "Z" trZ = true.
Proof.
  intros L client sta start end_ stdata ndval r H.
  unfold get_data_NEZ in H.
  apply result_of_bind_inv in H. destruct H as ([erd st] & _ & H).
  rewrite result_of_lift in H.
  eapply check_and_process_shape. exact H.
Qed.

(** Three traces of 20 samples at 10 Hz from the client. *)
Lemma result_is_error_or_three_components_witness :
  (false,
   Some (mkTrace "ABC" "BHN" "" 0 200000000 (Some (Num (-12345)))
                 (repeat (Num 2) 10)),
   Some (mkTrace "ABC" "BHE" "" 0 200000000 (Some (Num (-12345)))
                 (repeat (Num 3) 10)),
   Some (mkTrace "ABC" "BHZ" "" 0 200000000 (Some (Num (-12345)))
                 (repeat (Num 1) 10)))
  = error_result \/
  exists trN trE trZ,
    (false,
     Some (mkTrace "ABC" "BHN" "" 0 200000000 (Some (Num (-12345)))
                   (repeat (Num 2) 10)),
     Some (mkTrace "ABC" "BHE" "" 0 200000000 (Some (Num (-12345)))
                   (repeat (Num 3) 10)),
     Some (mkTrace "ABC" "BHZ" "" 0 200000000 (Some (Num (-12345)))
                   (repeat (Num 1) 10)))
    = (false, Some trN, Some trE, Some trZ) /\
    has_component "N" trN = true /\ has_component "E" trE = true /\
    has_component "Z" trZ = true.
Proof.
  apply (result_is_error_or_three_components (disk_library [])
           (client_with "" st_ZNE_10Hz) sta_ABC 0 (2 * hour) [] NaN).
  vm_compute. reflexivity.
Defined.

(** ** The no-data conversion *)

Lemma existsb_replace stnd ndval d :
  existsb isnan (map (fun x => if feqb x stnd then ndval else x) d)
  = (existsb isnan d || (isnan ndval && existsb (fun x => feqb x stnd) d))%bool.
Proof.
  induction d as [ | x rest IH]; cbn [map existsb].
  - rewrite Bool.andb_false_r. reflexivity.
  - rewrite IH. destruct x as [ | v], stnd as [ | w]; cbn [feqb isnan orb];
      try reflexivity.
    + destruct (v =? w); cbn [isnan orb];
        destruct (isnan ndval), (existsb isnan rest),
          (existsb (fun x => feqb x (Num w)) rest); reflexivity.
Qed.

(** X16: the no-data conversion of lines 496-500 leaves the first trace its
    start, its interval and its number of samples; it brings a NaN into a
    trace only when the fill value is NaN, the header value is neither 0.0
    nor -12345.0 and some sample equals the header value. *)
Theorem nodata_conversion_effect :
  forall stnd ndval st tr,
    index0 st = Ret tr ->
    exists tr',
      index0 (fst (convert_nodata stnd ndval st)) = Ret tr' /\
      starttime tr' = starttime tr /\ delta tr' = delta tr /\
      len (data tr') = len (data tr) /\
      has_nan tr'
      = (has_nan tr
         || (isnan ndval && snd (convert_nodata stnd ndval st)
             && existsb (fun x => feqb x stnd) (data tr)))%bool.
Proof.
  intros stnd ndval st tr Htr.
  destruct st as [ | x rest]; [ discriminate | ].
  inversion Htr; subst x.
  unfold convert_nodata.
  destruct (negb (feqb stnd (Num 0)) && negb (feqb stnd (Num (-12345))))%bool;
    cbn [fst snd update0 index0].
  - exists (replace_nodata stnd ndval tr).
    unfold replace_nodata, set_data, has_nan, len.
    cbn [starttime delta data].
    rewrite length_map, existsb_replace, Bool.andb_true_r.
    repeat split; reflexivity.
  - exists tr. rewrite Bool.andb_false_r, Bool.orb_false_r.
    repeat split; reflexivity.
Qed.

(** A trace with its no-data value -1 among its samples, filled with NaN. *)
Lemma nodata_conversion_effect_witness :
  exists tr',
    index0 (fst (convert_nodata (Num (-1)) NaN
                   [mkTrace "ABC" "BHZ" "" 0 hour (Some (Num (-1)))
                            [Num 4; Num (-1); Num 6]])) = Ret tr' /\
    starttime tr' = 0 /\ delta tr' = hour /\
    len (data tr') = 3 /\
    has_nan tr' = true.
Proof.
  apply (nodata_conversion_effect (Num (-1)) NaN
           [mkTrace "ABC" "BHZ" "" 0 hour (Some (Num (-1)))
                    [Num 4; Num (-1); Num 6]]
           (mkTrace "ABC" "BHZ" "" 0 hour (Some (Num (-1)))
                    [Num 4; Num (-1); Num 6])).
  reflexivity.
Defined.
